(** * meta_update.py: volume information extractor and metadata merger

    A shallow embedding of [meta_update.py] (OpenPecha/Opf-meta-updater):
    the catalog fetcher [get_ttl], the volume enumeration
    [get_vol_img_grp_id_list], the extractor [parse_volume_info] and the
    merger [get_new_meta].

    Python [str] values are modelled by their UTF-8 form as [string]:
    concatenation, equality, splitting on ["/"] and the code point order
    used by [list.sort] all agree with the byte-wise operations used here.
    Python [int] is [Z].  Exceptions, the log file, standard output, the
    random identifier generator and the object store are threaded through a
    state-and-exception monad [M].  The libraries the program calls (the
    Turtle parser of rdflib, the HTTP client, [uuid], [int] on strings) are
    parameters of the development. *)

From stdpp Require Import base option list gmap strings sorting.
From Stdlib Require Import ZArith Ascii String.

Local Open Scope string_scope.
Local Open Scope list_scope.

(** ** Python values *)

(** Immutable Python values that appear as YAML scalars, as mapping keys and
    as the [value] of an RDF literal.  [PyOther] stands for every value the
    program only passes around (float, Decimal, date, bytes ...): its
    [repr] and its truth value are all that can matter here. *)
Inductive scalar : Type :=
  | PyNone
  | PyBool (b : bool)
  | PyInt (z : Z)
  | PyStr (s : string)
  | PyOther (repr : string) (truth : bool).

(** [bool(v)] *)
Definition truthy (v : scalar) : bool :=
  match v with
  | PyNone => false
  | PyBool b => b
  | PyInt z => negb (Z.eqb z 0)
  | PyStr s => negb (String.eqb s "")
  | PyOther _ t => t
  end.

(** The exceptions the program can meet. *)
Inductive exn : Type :=
  | TypeError
  | ValueError
  | KeyError
  | AttributeError
  | RequestException (what : string)
  | OSError  (* from the file system *).

Inductive result (A : Type) : Type :=
  | Ok (a : A)
  | Raise (e : exn).
Arguments Ok {A} a.
Arguments Raise {A} e.

(** ** Python dictionaries

    A [dict] keeps its entries in insertion order.  [d[k] = v] replaces the
    value in place when the key is present and appends a new entry
    otherwise. *)
Definition dict (K V : Type) : Type := list (K * V).

Fixpoint dict_get {K V} (eqb : K -> K -> bool) (k : K) (d : dict K V) : option V :=
  match d with
  | [] => None
  | (k', v') :: d' => if eqb k' k then Some v' else dict_get eqb k d'
  end.

Fixpoint dict_set {K V} (eqb : K -> K -> bool) (k : K) (v : V) (d : dict K V) : dict K V :=
  match d with
  | [] => [(k, v)]
  | (k', v') :: d' =>
      if eqb k' k then (k', v) :: d' else (k', v') :: dict_set eqb k v d'
  end.

Definition dict_keys {K V} (d : dict K V) : list K := map fst d.
Definition dict_values {K V} (d : dict K V) : list V := map snd d.

(** ** The RDF graph (rdflib)

    A node is a [URIRef], a [BNode] or a [Literal]; all three are [str]
    subclasses.  A literal carries the Python value rdflib computed from
    its lexical form when it was built ([PyNone] when there is none). *)
Inductive Node : Type :=
  | URIRef (iri : string)
  | BNode (id : string)
  | Literal (lexical : string) (value : scalar).

Definition Triple : Type := Node * Node * Node.

(** The store keeps each triple once; the list order is the order in which
    the store yields them. *)
Definition Graph : Type := list Triple.

(** [str(node)] *)
Definition node_str (n : Node) : string :=
  match n with
  | URIRef iri => iri
  | BNode id => id
  | Literal lexical _ => lexical
  end.

(** Nodes of different classes are never equal; the program only ever
    matches against [URIRef] patterns. *)
Definition is_uri (pattern : string) (n : Node) : bool :=
  match n with
  | URIRef iri => String.eqb iri pattern
  | _ => false
  end.

(** [bool(node)]: plain [str] truth for [URIRef] and [BNode],
    [Literal.__bool__] for a literal. *)
Definition node_truthy (n : Node) : bool :=
  match n with
  | URIRef s | BNode s => negb (String.eqb s "")
  | Literal lexical PyNone => negb (String.eqb lexical "")
  | Literal _ v => truthy v
  end.

(** [g.objects(URIRef(s), URIRef(p))] *)
Definition objects (g : Graph) (s p : string) : list Node :=
  map (fun t : Triple => snd t)
      (List.filter (fun t : Triple => is_uri s (fst (fst t)) && is_uri p (snd (fst t))) g).

(** [g.value(URIRef(s), URIRef(p))]: the first object, [None] without one. *)
Definition graph_value (g : Graph) (s p : string) : option Node :=
  head (objects g s p).

(** Namespaces: [BDR[x]], [BDO[x]] and [RDFS.comment]. *)
Definition BDR (name : string) : string := "http://purl.bdrc.io/resource/" ++ name.
Definition BDO (name : string) : string := "http://purl.bdrc.io/ontology/core/" ++ name.
Definition RDFS_comment : string := "http://www.w3.org/2000/01/rdf-schema#comment".

(** ** Strings *)

(** [s.split(c)] for a one-character separator: never empty. *)
Fixpoint split (c : ascii) (s : string) : list string :=
  match s with
  | EmptyString => [EmptyString]
  | String a rest =>
      if Ascii.eqb a c then EmptyString :: split c rest
      else match split c rest with
           | piece :: pieces => String a piece :: pieces
           | [] => [String a EmptyString]
           end
  end.

(** [URI.split("/")[-1]] *)
Definition get_img_grp_id (URI : string) : string :=
  List.last (split "/" URI) EmptyString.

(** The order of [list.sort] on strings. *)
Definition str_le (s1 s2 : string) : Prop := String.leb s1 s2 = true.

#[global] Instance str_le_dec (s1 s2 : string) : Decision (str_le s1 s2) :=
  bool_eq_dec (String.leb s1 s2) true.

(** ** Volume records *)

Record VolRecord : Type := mkVolRecord {
  image_group_id : string;
  title : scalar;
  volume_number : Z;
  total_pages : Z;
}.

(** The mapping built by [parse_volume_info]: surrogate key to record. *)
Definition VolInfo : Type := dict string VolRecord.

(** ** The object store

    The metadata document comes from [yaml.safe_load]: mappings and
    sequences are mutable objects in a store and may be shared; scalars are
    values.  [VVolInfo] is the mapping built by this run, which nothing else
    refers to; no document handed to the program contains one, so it is
    never subscripted. *)
Definition loc : Type := positive.

Inductive val : Type :=
  | VScalar (v : scalar)
  | VRef (l : loc)
  | VVolInfo (vi : VolInfo).

Inductive obj : Type :=
  | ODict (d : dict scalar val)
  | OList (l : list val).

(** Key equality against a [str] key: only an equal [str] matches. *)
Definition key_is (k' k : scalar) : bool :=
  match k', k with
  | PyStr s', PyStr s => String.eqb s' s
  | _, _ => false
  end.

(** ** Program state and the monad *)

Inductive level : Type := WARNING | INFO.

Record World : Type := mkWorld {
  heap : gmap loc obj;          (* the objects of the metadata document *)
  log : list (level * string);  (* meta_update.log *)
  stdout : list string;         (* lines printed *)
  uuid_calls : nat;             (* identifiers drawn so far *)
}.

Definition M (A : Type) : Type := World -> result A * World.

Definition ret {A} (a : A) : M A := fun w => (Ok a, w).

Definition bind {A B} (m : M A) (k : A -> M B) : M B :=
  fun w => match m w with
           | (Ok a, w') => k a w'
           | (Raise e, w') => (Raise e, w')
           end.

Definition raise {A} (e : exn) : M A := fun w => (Raise e, w).

(** [try: m  except: handler] with a bare [except]: every exception is
    caught; what [m] did to the state before raising stays done. *)
Definition try_except {A} (m : M A) (handler : M A) : M A :=
  fun w => match m w with
           | (Ok a, w') => (Ok a, w')
           | (Raise _, w') => handler w'
           end.

Notation "x <- m ;; k" := (bind m (fun x => k))
  (at level 100, m at next level, right associativity).
Notation "m ;;; k" := (bind m (fun _ => k))
  (at level 100, right associativity).

Definition lift {A} (r : result A) : M A := fun w => (r, w).

Definition logging_warning (msg : string) : M unit :=
  fun w => (Ok tt, mkWorld (heap w) (log w ++ [(WARNING, msg)]) (stdout w) (uuid_calls w)).

Definition print (line : string) : M unit :=
  fun w => (Ok tt, mkWorld (heap w) (log w) (stdout w ++ [line]) (uuid_calls w)).

(** [for x in l: acc = body(acc, x)] *)
Fixpoint for_each {A S} (body : S -> A -> M S) (l : list A) (acc : S) : M S :=
  match l with
  | [] => ret acc
  | x :: l' => acc' <- body acc x ;; for_each body l' acc'
  end.

(** ** External collaborators

    The Turtle parser of rdflib, Python's [int] on a [str], the random
    identifier generator and the HTTP client are not part of the program;
    it is verified for every behaviour they can have. *)
Record Response : Type := mkResponse {
  status_code : Z;
  text : string;
}.

Class Externals : Type := {
  (* Graph().parse(data=..., format="ttl"): [None] when it raises *)
  turtle_parse : string -> option Graph;
  (* int(s) for a str: [None] when it raises ValueError *)
  int_of_str : string -> option Z;
  (* the n-th value returned by uuid.uuid4().hex *)
  uuid4_hex : nat -> string;
  (* requests.get(url): a response, whatever its status, or an exception *)
  requests_get : string -> result Response;
}.

Section Program.
Context `{!Externals}.

(** [uuid.uuid4().hex] *)
Definition uuid4 : M string :=
  fun w => (Ok (uuid4_hex (uuid_calls w)),
            mkWorld (heap w) (log w) (stdout w) (S (uuid_calls w))).

(** [int(x)] where [x] is the result of [g.value]: [None] is a
    [TypeError]; a node is a [str] and is parsed as one. *)
Definition py_int (x : option Node) : M Z :=
  match x with
  | None => raise TypeError
  | Some n => match int_of_str (node_str n) with
              | Some z => ret z
              | None => raise ValueError
              end
  end.

(** [node.value]: only a [Literal] has the attribute. *)
Definition dot_value (n : Node) : M scalar :=
  match n with
  | Literal _ v => ret v
  | _ => raise AttributeError
  end.

Definition get_ttl (work_id : string) : M string :=
  print "Downloading ttl file" ;;;
  try_except
    (ttl <- lift (requests_get ("http://purl.bdrc.io/graph/" ++ work_id ++ ".ttl")) ;;
     ret (text ttl))
    (print " TTL not Found!!!" ;;; ret "").

Definition get_vol_img_grp_id_list (g : Graph) (work_id : string) : list string :=
  let volumes := objects g (BDR work_id) (BDO "instanceHasVolume") in
  let vol_img_grp_ids := map (fun volume => get_img_grp_id (node_str volume)) volumes in
  merge_sort str_le vol_img_grp_ids.

(** The body of the loop of [parse_volume_info]. *)
Definition volume_step (g : Graph) (work_id : string)
    (vol_info : VolInfo) (vol_img_grp_id : string) : M VolInfo :=
  uid <- uuid4 ;;
  title <- match graph_value g (BDR vol_img_grp_id) RDFS_comment with
           | Some t =>
               if node_truthy t then dot_value t
               else
                 logging_warning (vol_img_grp_id ++ " in work id: " ++ work_id
                                  ++ " doesn't have proper title") ;;;
                 ret (PyStr "")
           | None =>
               logging_warning (vol_img_grp_id ++ " in work id: " ++ work_id
                                ++ " doesn't have proper title") ;;;
               ret (PyStr "")
           end ;;
  volume_number <- py_int (graph_value g (BDR vol_img_grp_id) (BDO "volumeNumber")) ;;
  total_pages <- try_except
                   (py_int (graph_value g (BDR vol_img_grp_id) (BDO "volumePagesTotal")))
                   (ret 0%Z) ;;
  ret (dict_set String.eqb uid
         (mkVolRecord vol_img_grp_id title volume_number total_pages) vol_info).

Definition parse_volume_info (meta_ttl work_id : string) : M VolInfo :=
  match turtle_parse meta_ttl with
  | None =>
      logging_warning (work_id ++ ".ttl Contains bad syntax") ;;;
      ret []
  | Some g =>
      let vol_img_grp_ids := get_vol_img_grp_id_list g work_id in
      for_each (volume_step g work_id) vol_img_grp_ids []
  end.

(** [o[k]] for a [str] key [k] *)
Definition getitem (o : val) (k : string) : M val :=
  fun w =>
    match o with
    | VRef l =>
        match heap w !! l with
        | Some (ODict d) =>
            match dict_get key_is (PyStr k) d with
            | Some v => (Ok v, w)
            | None => (Raise KeyError, w)
            end
        | _ => (Raise TypeError, w)
        end
    | _ => (Raise TypeError, w)
    end.

(** [o[k] = v] for a [str] key [k] *)
Definition setitem (o : val) (k : string) (v : val) : M unit :=
  fun w =>
    match o with
    | VRef l =>
        match heap w !! l with
        | Some (ODict d) =>
            (Ok tt, mkWorld (<[l := ODict (dict_set key_is (PyStr k) v d)]> (heap w))
                            (log w) (stdout w) (uuid_calls w))
        | _ => (Raise TypeError, w)
        end
    | _ => (Raise TypeError, w)
    end.

Definition get_new_meta (old_meta : val) (meta_ttl work_id : string) : M val :=
  volume_info <- parse_volume_info meta_ttl work_id ;;
  try_except
    (source_metadata <- getitem old_meta "source_metadata" ;;
     setitem source_metadata "volume" (VVolInfo volume_info))
    (logging_warning (work_id ++ " doesn't have proper meta.yml")) ;;;
  ret old_meta.

End Program.

(** ** What the graph says about one volume

    The outcome of the loop body for one image group identifier, read off
    the graph: used to describe the runs of [parse_volume_info]. *)
Section Describe.
Context `{!Externals}.

Definition title_warning (work_id vol_img_grp_id : string) : level * string :=
  (WARNING,
   (vol_img_grp_id ++ " in work id: " ++ work_id ++ " doesn't have proper title")%string).

(** The title lookup takes the [else] branch. *)
Definition title_missing (g : Graph) (id : string) : bool :=
  match graph_value g (BDR id) RDFS_comment with
  | Some t => negb (node_truthy t)
  | None => true
  end.

Definition title_of (g : Graph) (id : string) : result scalar :=
  match graph_value g (BDR id) RDFS_comment with
  | Some t =>
      if node_truthy t then
        match t with Literal _ v => Ok v | _ => Raise AttributeError end
      else Ok (PyStr "")
  | None => Ok (PyStr "")
  end.

Definition int_of (x : option Node) : result Z :=
  match x with
  | None => Raise TypeError
  | Some n => match int_of_str (node_str n) with
              | Some z => Ok z
              | None => Raise ValueError
              end
  end.

Definition number_of (g : Graph) (id : string) : result Z :=
  int_of (graph_value g (BDR id) (BDO "volumeNumber")).

Definition pages_of (g : Graph) (id : string) : result Z :=
  int_of (graph_value g (BDR id) (BDO "volumePagesTotal")).

Definition record_of (g : Graph) (id : string) : result VolRecord :=
  match title_of g id with
  | Raise e => Raise e
  | Ok t =>
      match number_of g id with
      | Raise e => Raise e
      | Ok n =>
          Ok (mkVolRecord id t n (match pages_of g id with Ok p => p | Raise _ => 0%Z end))
      end
  end.

(** The identifiers the loop gets to: all of them, or those up to and
    including the first one whose body raises. *)
Fixpoint processed (g : Graph) (ids : list string) : list string :=
  match ids with
  | [] => []
  | id :: ids' =>
      match record_of g id with
      | Ok _ => id :: processed g ids'
      | Raise _ => [id]
      end
  end.

Definition title_warnings (g : Graph) (work_id : string) (ids : list string)
    : list (level * string) :=
  map (title_warning work_id) (List.filter (title_missing g) ids).

(** The result of the loop started with [n] identifiers drawn and [acc]
    built. *)
Fixpoint volumes_outcome (g : Graph) (ids : list string) (n : nat) (acc : VolInfo)
    : result VolInfo :=
  match ids with
  | [] => Ok acc
  | id :: ids' =>
      match record_of g id with
      | Ok r => volumes_outcome g ids' (S n) (dict_set String.eqb (uuid4_hex n) r acc)
      | Raise e => Raise e
      end
  end.

(** The volume node of [id] has a volume number that [int] accepts. *)
Definition has_volume_number (g : Graph) (id : string) : Prop :=
  exists n z, graph_value g (BDR id) (BDO "volumeNumber") = Some n
              /\ int_of_str (node_str n) = Some z.

(** The volume-number relation of [id] is absent, or [int] rejects its
    value. *)
Definition lacks_volume_number (g : Graph) (id : string) : Prop :=
  graph_value g (BDR id) (BDO "volumeNumber") = None
  \/ exists n, graph_value g (BDR id) (BDO "volumeNumber") = Some n
               /\ int_of_str (node_str n) = None.

(** The same for the total-pages relation. *)
Definition lacks_total_pages (g : Graph) (id : string) : Prop :=
  graph_value g (BDR id) (BDO "volumePagesTotal") = None
  \/ exists n, graph_value g (BDR id) (BDO "volumePagesTotal") = Some n
               /\ int_of_str (node_str n) = None.

(** The title of [id], when there is a true one, is a literal. *)
Definition title_readable (g : Graph) (id : string) : Prop :=
  forall t, graph_value g (BDR id) RDFS_comment = Some t ->
            node_truthy t = true -> exists lexical v, t = Literal lexical v.

(** The identifiers drawn by a run that starts after [n] draws and makes
    [k] of them. *)
Definition drawn (n k : nat) : list string := map uuid4_hex (seq n k).

End Describe.

(** ** Shapes of the metadata document *)

(** [old_meta["source_metadata"]["volume"] = ...] cannot be carried out:
    [old_meta] is not a mapping, or it has no [source_metadata] key, or the
    value under that key is not a mapping. *)
Definition no_source_metadata (h : gmap loc obj) (old_meta : val) : Prop :=
  match old_meta with
  | VScalar _ => True
  | VRef l =>
      match h !! l with
      | Some (ODict d) =>
          match dict_get key_is (PyStr "source_metadata") d with
          | None => True
          | Some (VScalar _) => True
          | Some (VRef l2) =>
              match h !! l2 with
              | Some (OList _) => True
              | _ => False
              end
          | Some (VVolInfo _) => False
          end
      | Some (OList _) => True
      | None => False
      end
  | VVolInfo _ => False
  end.

(** [old_meta] is the mapping [d] at [l], whose [source_metadata] is the
    mapping [d2] at [l2]. *)
Definition source_metadata_at (h : gmap loc obj) (old_meta : val)
    (l : loc) (d : dict scalar val) (l2 : loc) (d2 : dict scalar val) : Prop :=
  old_meta = VRef l
  /\ h !! l = Some (ODict d)
  /\ dict_get key_is (PyStr "source_metadata") d = Some (VRef l2)
  /\ h !! l2 = Some (ODict d2).

(** The entries of a mapping other than the one under the [str] key [k],
    in their order. *)
Definition entries_except (k : string) (d : dict scalar val) : dict scalar val :=
  List.filter (fun e => negb (key_is (fst e) (PyStr k))) d.

(** ** Concrete collaborators and inputs

    Instances of the external collaborators and inputs on which the
    program can be run. *)
Module Sample.

(** [int] on plain decimal numerals, the only ones in the graphs below. *)
Fixpoint digits (s : string) (acc : Z) : option Z :=
  match s with
  | EmptyString => Some acc
  | String c rest =>
      let n := Z.of_nat (nat_of_ascii c) in
      if ((48 <=? n) && (n <=? 57))%Z then digits rest (10 * acc + (n - 48))%Z
      else None
  end.

Definition decimal (s : string) : option Z :=
  match s with
  | EmptyString => None
  | _ => digits s 0%Z
  end.

(** Thirty-two lower-case hexadecimal digits, as [uuid4().hex] returns. *)
Definition hex_digit (n : N) : ascii :=
  nth (N.to_nat n) (list_ascii_of_string "0123456789abcdef") "0"%char.

Fixpoint hex (width : nat) (n : N) : string :=
  match width with
  | O => EmptyString
  | S width' => (hex width' (n / 16)%N ++ String (hex_digit (n mod 16)%N) EmptyString)%string
  end.

Definition counter_hex (n : nat) : string := hex 32 (N.of_nat n + 2779096485)%N.

Definition work_id : string := "W22083".

Definition uri (s : string) : Node := URIRef s.

(** Two volumes, the second without title and page total. *)
Definition two_volumes_ttl : string :=
  "@prefix bdr: <http://purl.bdrc.io/resource/> .
@prefix bdo: <http://purl.bdrc.io/ontology/core/> .
@prefix rdfs: <http://www.w3.org/2000/01/rdf-schema#> .
bdr:W22083 bdo:instanceHasVolume bdr:I1002 , bdr:I1001 .
bdr:I1001 rdfs:comment 'Vol 1' ; bdo:volumeNumber 1 ; bdo:volumePagesTotal 50 .
bdr:I1002 bdo:volumeNumber 2 .
".

Definition two_volumes : Graph :=
  [ (uri (BDR "W22083"), uri (BDO "instanceHasVolume"), uri (BDR "I1002"));
    (uri (BDR "W22083"), uri (BDO "instanceHasVolume"), uri (BDR "I1001"));
    (uri (BDR "I1001"), uri RDFS_comment, Literal "Vol 1" (PyStr "Vol 1"));
    (uri (BDR "I1001"), uri (BDO "volumeNumber"), Literal "1" (PyInt 1));
    (uri (BDR "I1001"), uri (BDO "volumePagesTotal"), Literal "50" (PyInt 50));
    (uri (BDR "I1002"), uri (BDO "volumeNumber"), Literal "2" (PyInt 2)) ].

(** One volume that has no volume number. *)
Definition no_number_ttl : string :=
  "<http://purl.bdrc.io/resource/W22083> <http://purl.bdrc.io/ontology/core/instanceHasVolume> <http://purl.bdrc.io/resource/I1001> .
".

Definition no_number : Graph :=
  [ (uri (BDR "W22083"), uri (BDO "instanceHasVolume"), uri (BDR "I1001")) ].

(** Not Turtle: the statement has no object and no final dot. *)
Definition bad_ttl : string := "bdr:W22083 bdo:instanceHasVolume".

(** A parser that agrees with rdflib on the texts above and on the empty
    document, which has no statement and yields the empty graph. *)
Definition parse (data : string) : option Graph :=
  if String.eqb data two_volumes_ttl then Some two_volumes
  else if String.eqb data no_number_ttl then Some no_number
  else if String.eqb data "" then Some []
  else None.

Definition found (url : string) : result Response :=
  Ok (mkResponse 200 two_volumes_ttl).

(** The server answers 404 with an HTML page. *)
Definition not_found (url : string) : result Response :=
  Ok (mkResponse 404 "<html><body>Not Found</body></html>").

(** No connection. *)
Definition unreachable (url : string) : result Response :=
  Raise (RequestException "ConnectionError").

Definition online : Externals :=
  {| turtle_parse := parse; int_of_str := decimal;
     uuid4_hex := counter_hex; requests_get := found |}.

Definition missing : Externals :=
  {| turtle_parse := parse; int_of_str := decimal;
     uuid4_hex := counter_hex; requests_get := not_found |}.

Definition offline : Externals :=
  {| turtle_parse := parse; int_of_str := decimal;
     uuid4_hex := counter_hex; requests_get := unreachable |}.

(** A metadata document with a [source_metadata] mapping that already has
    a [volume] entry. *)
Definition top_entries : dict scalar val :=
  [ (PyStr "id", VScalar (PyStr "P000003"));
    (PyStr "source_metadata", VRef 2%positive) ].

Definition source_entries : dict scalar val :=
  [ (PyStr "title", VScalar (PyStr "bka' 'gyur"));
    (PyStr "volume", VScalar (PyStr "old"));
    (PyStr "author", VScalar PyNone) ].

Definition meta_heap : gmap loc obj :=
  <[1%positive := ODict top_entries]> (<[2%positive := ODict source_entries]> ∅).

(** The document [{source_metadata: {}}]. *)
Definition fresh_heap : gmap loc obj :=
  <[1%positive := ODict [ (PyStr "source_metadata", VRef 2%positive) ]]>
  (<[2%positive := ODict []]> ∅).

(** A document without [source_metadata]. *)
Definition bare_heap : gmap loc obj :=
  <[1%positive := ODict [ (PyStr "id", VScalar (PyStr "P000003")) ]]> ∅.

Definition start (h : gmap loc obj) : World := mkWorld h [] [] 0.

Definition graph_url : string := "http://purl.bdrc.io/graph/W22083.ttl".

(** What the first and the second run on [two_volumes_ttl] return. *)
Definition first_run : VolInfo :=
  [ ("000000000000000000000000a5a5a5a5", mkVolRecord "I1001" (PyStr "Vol 1") 1 50);
    ("000000000000000000000000a5a5a5a6", mkVolRecord "I1002" (PyStr "") 2 0) ].

Definition second_run : VolInfo :=
  [ ("000000000000000000000000a5a5a5a7", mkVolRecord "I1001" (PyStr "Vol 1") 1 50);
    ("000000000000000000000000a5a5a5a8", mkVolRecord "I1002" (PyStr "") 2 0) ].

Definition no_title_I1001 : level * string :=
  (WARNING, "I1001 in work id: W22083 doesn't have proper title").

Definition no_title_I1002 : level * string :=
  (WARNING, "I1002 in work id: W22083 doesn't have proper title").

Definition no_meta : level * string :=
  (WARNING, "W22083 doesn't have proper meta.yml").

End Sample.

(** ** The rest of the program

    [get_old_meta] and the entry point.  The YAML codec and the file system
    are further collaborators: the loader builds the objects of a document
    in the store, the dumper reads them, and the two path operations act on
    a disk of which nothing is assumed.  A path operation gives its outcome
    and the disk it leaves: one that raises may have changed the disk
    already. *)

(** Does character [c] occur in [s]? *)
Fixpoint contains (c : ascii) (s : string) : bool :=
  match s with
  | EmptyString => false
  | String a rest => Ascii.eqb a c || contains c rest
  end.

Class Platform : Type := {
  (* yaml.safe_load(text): the document and the store with its objects *)
  yaml_safe_load : string -> gmap loc obj -> result (val * gmap loc obj);
  (* yaml.safe_dump(doc, default_flow_style=False, sort_keys=False,
     allow_unicode=True) *)
  yaml_safe_dump : gmap loc obj -> val -> result string;
  Disk : Type;
  (* Path(p).mkdir(parents=True, exist_ok=True): how it ends and the disk it
     leaves; a call that raises may have made parent directories *)
  path_mkdir : string -> Disk -> result unit * Disk;
  (* Path(p).write_text(data, encoding="utf-8"): how it ends and the disk it
     leaves; a call that raises may have created or truncated the file *)
  path_write_text : string -> string -> Disk -> result unit * Disk;
}.

Section Pipeline.
Context `{!Externals} `{!Platform}.

Definition get_old_meta (opf_id : string) : M val :=
  old_meta <- lift (requests_get ("https://raw.githubusercontent.com/OpenPecha/"
                                  ++ opf_id ++ "/master/" ++ opf_id ++ ".opf/meta.yml")) ;;
  fun w =>
    match yaml_safe_load (text old_meta) (heap w) with
    | Ok (doc, h) => (Ok doc, mkWorld h (log w) (stdout w) (uuid_calls w))
    | Raise e => (Raise e, w)
    end.

Definition logging_info (msg : string) : M unit :=
  fun w => (Ok tt, mkWorld (heap w) (log w ++ [(INFO, msg)]) (stdout w) (uuid_calls w)).

(** The program state together with the disk. *)
Record Machine : Type := mkMachine {
  world : World;
  disk : Disk;
}.

Definition Prog (A : Type) : Type := Machine -> result A * Machine.

Definition bindP {A B} (m : Prog A) (k : A -> Prog B) : Prog B :=
  fun s => match m s with
           | (Ok a, s') => k a s'
           | (Raise e, s') => (Raise e, s')
           end.

(** A step that does not touch the disk. *)
Definition in_world {A} (m : M A) : Prog A :=
  fun s => let '(r, w') := m (world s) in (r, mkMachine w' (disk s)).

(** A step on the disk: what it did to the disk stays done when it
    raises. *)
Definition on_disk (f : Disk -> result unit * Disk) : Prog unit :=
  fun s => let '(r, d') := f (disk s) in (r, mkMachine (world s) d').

(** The [__main__] block. *)
Definition main : Prog unit :=
  let opf_id := "P000003" in
  let bdrc_work_id := "W22083" in
  bindP (in_world (get_ttl bdrc_work_id)) (fun meta_ttl =>
  bindP (in_world (get_old_meta opf_id)) (fun old_meta =>
  bindP (in_world (get_new_meta old_meta meta_ttl bdrc_work_id)) (fun new_meta =>
  bindP (fun s => (yaml_safe_dump (heap (world s)) new_meta, s)) (fun new_meta_yaml =>
  bindP (on_disk (path_mkdir ("./new_meta/" ++ opf_id))) (fun _ =>
  bindP (on_disk (path_write_text ("./new_meta/" ++ opf_id ++ "/meta.yml")
                                  new_meta_yaml)) (fun _ =>
  in_world (logging_info (opf_id ++ ".. Completed")))))))).

End Pipeline.

(** ** Further concrete collaborators and inputs *)
Module Scenario.
Import Sample.

(** The two volumes of [two_volumes_ttl], stated in another order. *)
Definition reordered_ttl : string :=
  "@prefix bdr: <http://purl.bdrc.io/resource/> .
@prefix bdo: <http://purl.bdrc.io/ontology/core/> .
@prefix rdfs: <http://www.w3.org/2000/01/rdf-schema#> .
bdr:I1002 bdo:volumeNumber 2 .
bdr:I1001 bdo:volumePagesTotal 50 ; bdo:volumeNumber 1 ; rdfs:comment 'Vol 1' .
bdr:W22083 bdo:instanceHasVolume bdr:I1001 , bdr:I1002 .
".

Definition reordered : Graph :=
  [ (uri (BDR "I1002"), uri (BDO "volumeNumber"), Literal "2" (PyInt 2));
    (uri (BDR "I1001"), uri (BDO "volumePagesTotal"), Literal "50" (PyInt 50));
    (uri (BDR "I1001"), uri (BDO "volumeNumber"), Literal "1" (PyInt 1));
    (uri (BDR "I1001"), uri RDFS_comment, Literal "Vol 1" (PyStr "Vol 1"));
    (uri (BDR "W22083"), uri (BDO "instanceHasVolume"), uri (BDR "I1001"));
    (uri (BDR "W22083"), uri (BDO "instanceHasVolume"), uri (BDR "I1002")) ].

(** One volume whose comment points to a resource. *)
Definition uri_title_ttl : string :=
  "@prefix bdr: <http://purl.bdrc.io/resource/> .
@prefix bdo: <http://purl.bdrc.io/ontology/core/> .
@prefix rdfs: <http://www.w3.org/2000/01/rdf-schema#> .
bdr:W22083 bdo:instanceHasVolume bdr:I1001 .
bdr:I1001 rdfs:comment bdr:T1 ; bdo:volumeNumber 1 .
".

Definition uri_title : Graph :=
  [ (uri (BDR "W22083"), uri (BDO "instanceHasVolume"), uri (BDR "I1001"));
    (uri (BDR "I1001"), uri RDFS_comment, uri (BDR "T1"));
    (uri (BDR "I1001"), uri (BDO "volumeNumber"), Literal "1" (PyInt 1)) ].

Definition parse (data : string) : option Graph :=
  if String.eqb data reordered_ttl then Some reordered
  else if String.eqb data uri_title_ttl then Some uri_title
  else Sample.parse data.

Definition meta_url : string :=
  "https://raw.githubusercontent.com/OpenPecha/P000003/master/P000003.opf/meta.yml".

Definition meta_yml : string :=
  "id: P000003
source_metadata:
  title: bka' 'gyur
  volume: old
  author: null
".

(** The server of the metadata answers; the catalog answers with [ttl], or
    not at all. *)
Definition serve (ttl : option string) (url : string) : result Response :=
  if String.eqb url meta_url then Ok (mkResponse 200 meta_yml)
  else match ttl with
       | Some body => Ok (mkResponse 200 body)
       | None => Raise (RequestException "ConnectionError")
       end.

Definition library (ttl : option string) : Externals :=
  {| turtle_parse := parse; int_of_str := decimal;
     uuid4_hex := counter_hex; requests_get := serve ttl |}.

(** A loader that knows [meta_yml]. *)
Definition load (data : string) (h : gmap loc obj) : result (val * gmap loc obj) :=
  if String.eqb data meta_yml then Ok (VRef 1%positive, meta_heap ∪ h)
  else Raise ValueError.

Definition newline : string := String (ascii_of_nat 10) EmptyString.

(** A dumper for mappings of strings, nulls, mappings and empty volume
    mappings, in block style. *)
Fixpoint render (fuel : nat) (h : gmap loc obj) (indent : string) (v : val) : string :=
  match fuel with
  | O => "..."
  | S fuel' =>
      match v with
      | VScalar (PyStr s) => s
      | VScalar PyNone => "null"
      | VScalar _ => "?"
      | VVolInfo [] => "{}"
      | VVolInfo _ => "?"
      | VRef l =>
          match h !! l with
          | Some (ODict d) =>
              String.concat ""
                (map (fun e : scalar * val =>
                        let key := match fst e with PyStr k => k | _ => "?" end in
                        match snd e with
                        | VRef _ =>
                            (indent ++ key ++ ":" ++ newline
                             ++ render fuel' h (indent ++ "  ") (snd e))%string
                        | _ =>
                            (indent ++ key ++ ": " ++ render fuel' h indent (snd e)
                             ++ newline)%string
                        end) d)
          | _ => "?"
          end
      end
  end.

Definition dump (h : gmap loc obj) (doc : val) : result string :=
  Ok (render 8 h "" doc).

(** A disk of files; directories are not recorded. *)
Definition local : Platform :=
  {| yaml_safe_load := load; yaml_safe_dump := dump;
     Disk := gmap string string;
     path_mkdir := fun _ d => (Ok tt, d);
     path_write_text := fun path data d => (Ok tt, <[path := data]> d) |}.

Definition erased_yml : string :=
  "id: P000003
source_metadata:
  title: bka' 'gyur
  volume: {}
  author: null
".

Definition erased_heap : gmap loc obj :=
  <[2%positive := ODict (dict_set key_is (PyStr "volume") (VVolInfo []) source_entries)]>
    (meta_heap ∪ ∅).

End Scenario.

(** ** Inputs and collaborators that fail *)
Module Faults.
Import Sample.

(** Three volumes, listed out of order.  The first in sorted order is in
    good shape, the second has a volume number that is no numeral, and the
    comment of the third points to a resource. *)
Definition three_volumes_ttl : string :=
  "@prefix bdr: <http://purl.bdrc.io/resource/> .
@prefix bdo: <http://purl.bdrc.io/ontology/core/> .
@prefix rdfs: <http://www.w3.org/2000/01/rdf-schema#> .
bdr:W22083 bdo:instanceHasVolume bdr:I1003 , bdr:I1001 , bdr:I1002 .
bdr:I1001 rdfs:comment 'Vol 1' ; bdo:volumeNumber 1 .
bdr:I1002 bdo:volumeNumber 'two' .
bdr:I1003 rdfs:comment bdr:T3 ; bdo:volumeNumber 3 .
".

Definition three_volumes : Graph :=
  [ (uri (BDR "W22083"), uri (BDO "instanceHasVolume"), uri (BDR "I1003"));
    (uri (BDR "W22083"), uri (BDO "instanceHasVolume"), uri (BDR "I1001"));
    (uri (BDR "W22083"), uri (BDO "instanceHasVolume"), uri (BDR "I1002"));
    (uri (BDR "I1001"), uri RDFS_comment, Literal "Vol 1" (PyStr "Vol 1"));
    (uri (BDR "I1001"), uri (BDO "volumeNumber"), Literal "1" (PyInt 1));
    (uri (BDR "I1002"), uri (BDO "volumeNumber"), Literal "two" (PyStr "two"));
    (uri (BDR "I1003"), uri RDFS_comment, uri (BDR "T3"));
    (uri (BDR "I1003"), uri (BDO "volumeNumber"), Literal "3" (PyInt 3)) ].

Definition parse (data : string) : option Graph :=
  if String.eqb data three_volumes_ttl then Some three_volumes
  else Scenario.parse data.

Definition catalog : Externals :=
  {| turtle_parse := parse; int_of_str := decimal;
     uuid4_hex := counter_hex;
     requests_get := Scenario.serve (Some three_volumes_ttl) |}.


End Faults.

(** * Properties *)

(** ** The order of [list.sort] *)

Lemma ascii_compare_trans (a b c : ascii) (o : comparison) :
  Ascii.compare a b = o -> Ascii.compare b c = o -> Ascii.compare a c = o.
Proof.
  unfold Ascii.compare. destruct o; intros Hab Hbc.
  - apply N.compare_eq_iff in Hab, Hbc. apply N.compare_eq_iff. congruence.
  - rewrite N.compare_lt_iff in *. lia.
  - rewrite N.compare_gt_iff in *. lia.
Qed.

Lemma string_compare_trans (s1 : string) :
  forall s2 s3,
    String.compare s1 s2 <> Gt -> String.compare s2 s3 <> Gt ->
    String.compare s1 s3 <> Gt.
Proof.
  induction s1 as [|a s1 IH]; intros [|b s2] [|c s3]; simpl; try congruence.
  destruct (Ascii.compare a b) eqn:Hab; destruct (Ascii.compare b c) eqn:Hbc;
    try congruence; intros H12 H23.
  - rewrite (ascii_compare_trans a b c Eq Hab Hbc). eauto.
  - apply Ascii.compare_eq_iff in Hab. subst b. rewrite Hbc. congruence.
  - apply Ascii.compare_eq_iff in Hbc. subst c. rewrite Hab. congruence.
  - rewrite (ascii_compare_trans a b c Lt Hab Hbc). congruence.
Qed.

#[global] Instance str_le_total : Total str_le.
Proof. intros s1 s2. apply String.leb_total. Qed.

#[global] Instance str_le_trans : Transitive str_le.
Proof.
  intros s1 s2 s3. unfold str_le, String.leb. intros H12 H23.
  pose proof (string_compare_trans s1 s2 s3) as Ht.
  destruct (String.compare s1 s2), (String.compare s2 s3), (String.compare s1 s3);
    try done; exfalso; apply Ht; congruence.
Qed.

#[global] Instance str_le_antisym : AntiSymm eq str_le.
Proof. intros s1 s2. apply String.leb_antisym. Qed.

(** ** Dictionaries *)

Lemma dict_set_fresh {V} (k : string) (v : V) (d : dict string V) :
  k ∉ dict_keys d -> dict_set String.eqb k v d = d ++ [(k, v)].
Proof.
  induction d as [|[k' v'] d IH]; simpl; intros Hk; [done|].
  apply not_elem_of_cons in Hk as [Hne Hk].
  destruct (String.eqb k' k) eqn:E.
  - apply String.eqb_eq in E. congruence.
  - by rewrite IH.
Qed.

Lemma dict_set_elem {V} (k : string) (v : V) (d : dict string V) (k' : string) (v' : V) :
  (k', v') ∈ dict_set String.eqb k v d -> (k', v') ∈ d \/ v' = v.
Proof.
  induction d as [|[k0 v0] d IH]; simpl.
  - intros Hin. apply list_elem_of_singleton in Hin. right. congruence.
  - destruct (String.eqb k0 k).
    + intros Hin. apply elem_of_cons in Hin as [Heq|Hin].
      * right. congruence.
      * left. by apply elem_of_cons; right.
    + intros Hin. apply elem_of_cons in Hin as [Heq|Hin].
      * left. rewrite Heq. by apply elem_of_cons; left.
      * destruct (IH Hin) as [Hd|Hv]; [left|by right].
        by apply elem_of_cons; right.
Qed.

Lemma dict_get_set_eq {V} (k : string) (v : V) (d : dict scalar V) :
  dict_get key_is (PyStr k) (dict_set key_is (PyStr k) v d) = Some v.
Proof.
  induction d as [|[k' v'] d IH]; simpl.
  - by rewrite String.eqb_refl.
  - destruct (key_is k' (PyStr k)) eqn:E; simpl; by rewrite E.
Qed.

Lemma dict_get_set_ne {V} (k k0 : scalar) (v : V) (d : dict scalar V) :
  key_is k0 k = false ->
  dict_get key_is k0 (dict_set key_is k v d) = dict_get key_is k0 d.
Proof.
  intros Hne. induction d as [|[k' v'] d IH]; simpl.
  - destruct k as [| | |s|]; destruct k0 as [| | |s0|]; simpl in *; try done.
    by rewrite String.eqb_sym, Hne.
  - destruct (key_is k' k) eqn:E; simpl; [|by rewrite IH].
    destruct (key_is k' k0) eqn:E0; [|done].
    destruct k' as [| | |s'|]; simpl in *; try done.
    destruct k as [| | |s|]; destruct k0 as [| | |s0|]; simpl in *; try done.
    apply String.eqb_eq in E, E0. subst.
    by rewrite String.eqb_refl in Hne.
Qed.

(** Apart from the entry of the key that is set, a dictionary keeps its
    entries and their order. *)
Lemma dict_set_frame (k : string) (v : val) (d : dict scalar val) :
  entries_except k (dict_set key_is (PyStr k) v d) = entries_except k d.
Proof.
  unfold entries_except. induction d as [|[k' v'] d IH]; simpl.
  - by rewrite String.eqb_refl.
  - destruct (key_is k' (PyStr k)) eqn:E; simpl; rewrite E; simpl; [done|by rewrite IH].
Qed.

(** ** The loop of [parse_volume_info] *)

(** Unfold the operations of the monad. *)
Ltac run_monad :=
  unfold bind, try_except, ret, raise, lift, print, logging_warning.

Section Loop.
Context `{!Externals}.

Lemma volume_step_spec g work_id acc id w :
  volume_step g work_id acc id w =
    (match record_of g id with
     | Ok r => Ok (dict_set String.eqb (uuid4_hex (uuid_calls w)) r acc)
     | Raise e => Raise e
     end,
     mkWorld (heap w) (log w ++ title_warnings g work_id [id]) (stdout w)
             (S (uuid_calls w))).
Proof.
  unfold volume_step, record_of, title_of, number_of, pages_of, int_of,
    title_warnings, title_missing, title_warning.
  unfold uuid4, py_int, dot_value. run_monad. simpl.
  destruct (graph_value g (BDR id) RDFS_comment) as [t|]; simpl.
  - destruct (node_truthy t) eqn:Ht; simpl.
    + destruct t; simpl; rewrite ?app_nil_r; try reflexivity;
        repeat (case_match; simpl; simplify_eq; try done).
    + repeat (case_match; simpl; simplify_eq; try done).
  - repeat (case_match; simpl; simplify_eq; try done).
Qed.

Lemma title_warnings_app g work_id ids1 ids2 :
  title_warnings g work_id (ids1 ++ ids2)
  = title_warnings g work_id ids1 ++ title_warnings g work_id ids2.
Proof. unfold title_warnings. by rewrite List.filter_app, map_app. Qed.

Lemma for_each_spec g work_id ids :
  forall acc w,
    for_each (volume_step g work_id) ids acc w =
      (volumes_outcome g ids (uuid_calls w) acc,
       mkWorld (heap w) (log w ++ title_warnings g work_id (processed g ids))
               (stdout w) (uuid_calls w + List.length (processed g ids))).
Proof.
  induction ids as [|id ids IH]; intros acc w.
  - simpl. unfold ret, title_warnings. simpl.
    rewrite app_nil_r, Nat.add_0_r. by destruct w.
  - simpl. unfold bind. rewrite volume_step_spec.
    destruct (record_of g id) as [r|e].
    + rewrite IH. simpl. f_equal. f_equal; [|lia].
      rewrite <- app_assoc. f_equal.
      change (id :: processed g ids) with ([id] ++ processed g ids).
      by rewrite title_warnings_app.
    + simpl. f_equal. f_equal. lia.
Qed.

(** What [parse_volume_info] does once the text is parsed. *)
Lemma parse_volume_info_parsed meta_ttl work_id g w :
  turtle_parse meta_ttl = Some g ->
  parse_volume_info meta_ttl work_id w =
    (volumes_outcome g (get_vol_img_grp_id_list g work_id) (uuid_calls w) [],
     mkWorld (heap w)
       (log w ++ title_warnings g work_id
                   (processed g (get_vol_img_grp_id_list g work_id)))
       (stdout w)
       (uuid_calls w + List.length (processed g (get_vol_img_grp_id_list g work_id)))).
Proof.
  intros Hg. unfold parse_volume_info. rewrite Hg. simpl. apply for_each_spec.
Qed.

Lemma record_of_id g id r : record_of g id = Ok r -> image_group_id r = id.
Proof.
  unfold record_of. destruct (title_of g id); [|done].
  destruct (number_of g id); [|done]. by intros [= <-].
Qed.

Lemma record_of_pages g id r :
  record_of g id = Ok r ->
  total_pages r = match pages_of g id with Ok p => p | Raise _ => 0%Z end.
Proof.
  unfold record_of. destruct (title_of g id); [|done].
  destruct (number_of g id); [|done]. by intros [= <-].
Qed.

Lemma record_of_described g id :
  has_volume_number g id -> title_readable g id -> exists r, record_of g id = Ok r.
Proof.
  intros (n & z & Hn & Hz) Ht. unfold record_of, title_of, number_of, int_of.
  rewrite Hn, Hz.
  destruct (graph_value g (BDR id) RDFS_comment) as [t|] eqn:Hc; [|eauto].
  destruct (node_truthy t) eqn:Htr; [|eauto].
  destruct (Ht t Hc Htr) as (lexical & v & ->). eauto.
Qed.

Lemma record_of_no_number g id :
  ~ has_volume_number g id -> exists e, record_of g id = Raise e.
Proof.
  intros Hno. unfold record_of. destruct (title_of g id); [|eauto].
  unfold number_of, int_of.
  destruct (graph_value g (BDR id) (BDO "volumeNumber")) as [n|] eqn:Hn; [|eauto].
  destruct (int_of_str (node_str n)) as [z|] eqn:Hz; [|eauto].
  destruct Hno. by exists n, z.
Qed.

Lemma processed_all g ids rs :
  Forall2 (fun id r => record_of g id = Ok r) ids rs -> processed g ids = ids.
Proof. induction 1 as [|id r ids rs Hr _ IH]; simpl; [done|]. by rewrite Hr, IH. Qed.

Lemma volumes_outcome_inv g ids :
  forall n acc m,
    volumes_outcome g ids n acc = Ok m ->
    exists rs, Forall2 (fun id r => record_of g id = Ok r) ids rs.
Proof.
  induction ids as [|id ids IH]; simpl; intros n acc m Hm.
  - exists []. constructor.
  - destruct (record_of g id) as [r|e] eqn:Hr; [|done].
    destruct (IH _ _ _ Hm) as [rs Hrs]. exists (r :: rs). by constructor.
Qed.

Lemma volumes_outcome_raise g ids :
  forall n acc,
    Exists (fun id => exists e, record_of g id = Raise e) ids ->
    exists e, volumes_outcome g ids n acc = Raise e.
Proof.
  induction ids as [|id ids IH]; simpl; intros n acc Hex.
  - inversion Hex.
  - destruct (record_of g id) as [r|e] eqn:Hr; [|eauto].
    apply IH. inversion Hex as [? ? [e He]|]; [congruence|done].
Qed.

(** Which exception ends the loop does not depend on the identifiers
    drawn. *)
Lemma volumes_outcome_raise_indep g ids :
  forall n acc e n' acc',
    volumes_outcome g ids n acc = Raise e ->
    volumes_outcome g ids n' acc' = Raise e.
Proof.
  induction ids as [|id ids IH]; simpl; intros n acc e n' acc' He; [done|].
  destruct (record_of g id); [eauto|done].
Qed.

Lemma drawn_S n k : drawn n (S k) = uuid4_hex n :: drawn (S n) k.
Proof. reflexivity. Qed.

Lemma drawn_length n k : List.length (drawn n k) = k.
Proof. unfold drawn. by rewrite length_map, length_seq. Qed.

Lemma drawn_app n k1 k2 : drawn n (k1 + k2) = drawn n k1 ++ drawn (n + k1) k2.
Proof. unfold drawn. by rewrite seq_app, map_app. Qed.

(** With fresh identifiers every volume adds one entry at the end. *)
Lemma volumes_outcome_fresh g ids :
  forall rs n acc,
    Forall2 (fun id r => record_of g id = Ok r) ids rs ->
    NoDup (dict_keys acc ++ drawn n (List.length ids)) ->
    volumes_outcome g ids n acc = Ok (acc ++ zip (drawn n (List.length ids)) rs).
Proof.
  induction ids as [|id ids IH]; intros rs n acc Hrs Hnd.
  - inversion Hrs. simpl. by rewrite app_nil_r.
  - inversion Hrs as [|? r ? rs' Hr Hrs']; subst.
    change (List.length (id :: ids)) with (S (List.length ids)) in *.
    rewrite drawn_S in *. cbn [volumes_outcome]. rewrite Hr.
    assert (uuid4_hex n ∉ dict_keys acc) as Hfresh.
    { apply NoDup_app in Hnd as (_ & Hdisj & _). intros Hin.
      apply (Hdisj _ Hin). by apply elem_of_cons; left. }
    rewrite dict_set_fresh by done.
    rewrite (IH rs' (S n) _ Hrs').
    + by rewrite <- app_assoc.
    + unfold dict_keys in *. rewrite map_app. simpl. rewrite <- app_assoc. exact Hnd.
Qed.

(** Every entry of the result is an entry of [acc] or the record of one of
    the volumes. *)
Lemma volumes_outcome_elem g ids :
  forall n acc m k r,
    volumes_outcome g ids n acc = Ok m -> (k, r) ∈ m ->
    (k, r) ∈ acc \/ exists id, id ∈ ids /\ record_of g id = Ok r.
Proof.
  induction ids as [|id ids IH]; simpl; intros n acc m k r Hm Hin.
  - left. congruence.
  - destruct (record_of g id) as [r0|e] eqn:Hr; [|done].
    destruct (IH _ _ _ _ _ Hm Hin) as [Hacc|(id' & Hid' & Hr')].
    + apply dict_set_elem in Hacc as [Hacc| ->]; [by left|].
      right. exists id. split; [by apply elem_of_cons; left|done].
    + right. exists id'. split; [by apply elem_of_cons; right|done].
Qed.

End Loop.

(** ** The extractor *)

Section Extractor.
Context `{!Externals}.

Lemma get_vol_img_grp_id_list_perm g work_id :
  get_vol_img_grp_id_list g work_id
  ≡ₚ map (fun volume => get_img_grp_id (node_str volume))
         (objects g (BDR work_id) (BDO "instanceHasVolume")).
Proof. unfold get_vol_img_grp_id_list. apply merge_sort_Permutation. Qed.

Lemma get_vol_img_grp_id_list_length g work_id :
  List.length (get_vol_img_grp_id_list g work_id)
  = List.length (objects g (BDR work_id) (BDO "instanceHasVolume")).
Proof.
  rewrite (Permutation_length (get_vol_img_grp_id_list_perm g work_id)).
  apply length_map.
Qed.

Lemma get_vol_img_grp_id_list_sorted g work_id :
  StronglySorted str_le (get_vol_img_grp_id_list g work_id).
Proof. unfold get_vol_img_grp_id_list. apply StronglySorted_merge_sort; apply _. Qed.

Lemma parse_volume_info_heap meta_ttl work_id w :
  heap (snd (parse_volume_info meta_ttl work_id w)) = heap w.
Proof.
  destruct (turtle_parse meta_ttl) as [g|] eqn:Hg.
  - by rewrite (parse_volume_info_parsed _ _ g).
  - unfold parse_volume_info. by rewrite Hg.
Qed.

Lemma described_records g ids :
  (forall id, id ∈ ids -> has_volume_number g id /\ title_readable g id) ->
  exists rs, Forall2 (fun id r => record_of g id = Ok r) ids rs.
Proof.
  induction ids as [|id ids IH]; intros Hd.
  - exists []. constructor.
  - destruct (Hd id) as [Hn Ht]; [by apply elem_of_cons; left|].
    destruct (record_of_described g id Hn Ht) as [r Hr].
    destruct IH as [rs Hrs].
    { intros id' Hin. apply Hd. by apply elem_of_cons; right. }
    exists (r :: rs). by constructor.
Qed.

Lemma records_ids g ids rs :
  Forall2 (fun id r => record_of g id = Ok r) ids rs -> map image_group_id rs = ids.
Proof.
  induction 1 as [|id r ids rs Hr _ IH]; simpl; [done|].
  by rewrite (record_of_id g id r Hr), IH.
Qed.

Lemma lacks_volume_number_raises g id :
  lacks_volume_number g id -> exists e, record_of g id = Raise e.
Proof.
  intros Hl. apply record_of_no_number. intros (n & z & Hn & Hz).
  destruct Hl as [Habs|(n' & Hn' & Hz')]; congruence.
Qed.

Lemma record_of_raise_kind g id e :
  record_of g id = Raise e -> e = AttributeError \/ e = TypeError \/ e = ValueError.
Proof.
  unfold record_of, title_of, number_of, int_of.
  repeat (case_match; simplify_eq; try done); intros [= <-]; auto.
Qed.

Lemma volumes_outcome_raise_kind g ids :
  forall n acc e,
    volumes_outcome g ids n acc = Raise e ->
    e = AttributeError \/ e = TypeError \/ e = ValueError.
Proof.
  induction ids as [|id ids IH]; simpl; intros n acc e He; [done|].
  destruct (record_of g id) as [r|e'] eqn:Hr; [eauto|].
  injection He as <-. by eapply record_of_raise_kind.
Qed.

(** C7: when the text is not valid Turtle (the parser raises),
    [parse_volume_info] returns the empty mapping, raises nothing, and
    appends to the log one warning, whose message starts with the work
    identifier; nothing else changes. *)
Theorem bad_syntax_gives_empty_mapping meta_ttl work_id w :
  turtle_parse meta_ttl = None ->
  parse_volume_info meta_ttl work_id w =
    (Ok [],
     mkWorld (heap w)
             (log w ++ [(WARNING, (work_id ++ ".ttl Contains bad syntax")%string)])
             (stdout w) (uuid_calls w)).
Proof. intros Hbad. unfold parse_volume_info. by rewrite Hbad. Qed.

(** C2: let the text parse and let some volume of the work have no volume
    number, or one that [int] rejects.  The failure is not caught in the
    loop body: run for that volume, the body raises the [TypeError] (no
    value) or [ValueError] (value rejected) of [int], unless reading the
    title has raised before.  Nor is it caught further up:
    [parse_volume_info] returns no mapping at all, it ends by raising an
    exception of the loop body.  The document store is left as it was. *)
Theorem bad_volume_number_propagates meta_ttl work_id g id w :
  turtle_parse meta_ttl = Some g ->
  id ∈ get_vol_img_grp_id_list g work_id ->
  lacks_volume_number g id ->
  (forall acc w0,
      title_readable g id ->
      exists e w0',
        volume_step g work_id acc id w0 = (Raise e, w0')
        /\ (e = TypeError \/ e = ValueError))
  /\ exists e w',
       parse_volume_info meta_ttl work_id w = (Raise e, w')
       /\ (e = AttributeError \/ e = TypeError \/ e = ValueError)
       /\ heap w' = heap w.
Proof.
  intros Hg Hin Hlacks. split.
  - intros acc w0 Htitle. rewrite volume_step_spec.
    destruct (lacks_volume_number_raises g id Hlacks) as [e He]. rewrite He.
    eexists _, _. split; [reflexivity|].
    unfold record_of, title_of, number_of, int_of in He.
    destruct (graph_value g (BDR id) RDFS_comment) as [t|] eqn:Hc.
    + destruct (node_truthy t) eqn:Htr.
      * destruct (Htitle t Hc Htr) as (lexical & v & ->).
        repeat (case_match; simplify_eq; try done); auto.
      * repeat (case_match; simplify_eq; try done); auto.
    + repeat (case_match; simplify_eq; try done); auto.
  - rewrite (parse_volume_info_parsed _ _ g _ Hg).
    destruct (volumes_outcome_raise g (get_vol_img_grp_id_list g work_id)
                (uuid_calls w) []) as [e He].
    { apply Exists_exists. exists id. split; [done|].
      by apply lacks_volume_number_raises. }
    rewrite He. eexists _, _. split; [reflexivity|]. split; [|done].
    by eapply volumes_outcome_raise_kind.
Qed.

(** C1, as amended: when the text parses into a graph with N "has volume"
    relations for the work, every volume so named has a volume number that
    [int] accepts and a title that is absent, false or a literal, and the
    N identifiers drawn are pairwise distinct, [parse_volume_info] returns
    a mapping of exactly N records whose keys are those identifiers, hence
    pairwise distinct. *)
Theorem one_record_per_volume meta_ttl work_id g w :
  turtle_parse meta_ttl = Some g ->
  (forall id, id ∈ get_vol_img_grp_id_list g work_id ->
              has_volume_number g id /\ title_readable g id) ->
  NoDup (drawn (uuid_calls w)
               (List.length (objects g (BDR work_id) (BDO "instanceHasVolume")))) ->
  exists m w',
    parse_volume_info meta_ttl work_id w = (Ok m, w')
    /\ List.length m = List.length (objects g (BDR work_id) (BDO "instanceHasVolume"))
    /\ dict_keys m = drawn (uuid_calls w) (List.length m)
    /\ NoDup (dict_keys m).
Proof.
  intros Hg Hd Hnd.
  rewrite <- get_vol_img_grp_id_list_length in *.
  destruct (described_records g _ Hd) as [rs Hrs].
  rewrite (parse_volume_info_parsed _ _ g _ Hg).
  rewrite (volumes_outcome_fresh g _ rs) by done.
  pose proof (Forall2_length _ _ _ Hrs) as Hlen.
  eexists _, _. split; [reflexivity|]. simpl.
  assert (List.length (zip (drawn (uuid_calls w)
            (List.length (get_vol_img_grp_id_list g work_id))) rs)
          = List.length (get_vol_img_grp_id_list g work_id)) as Hz.
  { rewrite length_zip_with, drawn_length. lia. }
  rewrite Hz. split; [done|].
  assert (dict_keys (zip (drawn (uuid_calls w)
            (List.length (get_vol_img_grp_id_list g work_id))) rs)
          = drawn (uuid_calls w) (List.length (get_vol_img_grp_id_list g work_id)))
    as Hk.
  { unfold dict_keys. apply fst_zip. rewrite drawn_length. lia. }
  rewrite Hk. done.
Qed.

(** C5: the list of image group identifiers that drives the loop is sorted
    ascending by string order and is a rearrangement of the trailing
    segments of the work's volumes; and, the identifiers drawn being
    pairwise distinct, the records of the mapping that [parse_volume_info]
    returns, read in insertion order, carry exactly that list as their
    [image_group_id] fields. *)
Theorem records_follow_sorted_ids meta_ttl work_id g w m w' :
  turtle_parse meta_ttl = Some g ->
  parse_volume_info meta_ttl work_id w = (Ok m, w') ->
  NoDup (drawn (uuid_calls w) (List.length (get_vol_img_grp_id_list g work_id))) ->
  StronglySorted str_le (get_vol_img_grp_id_list g work_id)
  /\ get_vol_img_grp_id_list g work_id
     ≡ₚ map (fun volume => get_img_grp_id (node_str volume))
            (objects g (BDR work_id) (BDO "instanceHasVolume"))
  /\ map image_group_id (dict_values m) = get_vol_img_grp_id_list g work_id.
Proof.
  intros Hg Hrun Hnd.
  split; [apply get_vol_img_grp_id_list_sorted|].
  split; [apply get_vol_img_grp_id_list_perm|].
  rewrite (parse_volume_info_parsed _ _ g _ Hg) in Hrun.
  injection Hrun as Hm _.
  destruct (volumes_outcome_inv g _ _ _ _ Hm) as [rs Hrs].
  rewrite (volumes_outcome_fresh g _ rs) in Hm by done.
  injection Hm as <-. simpl. unfold dict_values.
  rewrite snd_zip.
  - by apply (records_ids g).
  - rewrite drawn_length. by rewrite (Forall2_length _ _ _ Hrs).
Qed.

Lemma lacks_total_pages_default g id r :
  record_of g id = Ok r -> lacks_total_pages g id -> total_pages r = 0%Z.
Proof.
  intros Hr Hl. rewrite (record_of_pages g id r Hr). unfold pages_of, int_of.
  destruct Hl as [->|(n & -> & ->)]; done.
Qed.

(** Each identifier has its record in the zipped mapping. *)
Lemma zip_covers g ids rs :
  Forall2 (fun id r => record_of g id = Ok r) ids rs ->
  forall (keys : list string) id,
    List.length keys = List.length ids ->
    id ∈ ids ->
    exists uid r, (uid, r) ∈ zip keys rs /\ record_of g id = Ok r.
Proof.
  induction 1 as [|id0 r0 ids rs Hr _ IH]; intros keys id Hlen Hin.
  - by apply elem_of_nil in Hin.
  - destruct keys as [|k keys]; [done|]. injection Hlen as Hlen.
    apply elem_of_cons in Hin as [->|Hin].
    + exists k, r0. split; [by apply elem_of_cons; left|done].
    + destruct (IH keys id Hlen Hin) as (uid & r & Hzip & Hrec).
      exists uid, r. split; [by apply elem_of_cons; right|done].
Qed.

(** C6: let the text parse, every listed volume have a volume number that
    [int] accepts and a readable title, and the identifiers drawn be
    pairwise distinct.  Then [parse_volume_info] returns a mapping in which
    every listed volume that has no total-pages relation, or one that [int]
    rejects, has a record, and that record has [total_pages] 0; indeed every
    record of such a volume has [total_pages] 0.  The failure is caught on
    the spot, since the run returns whatever the total-pages relations are,
    and nothing is logged for it: the log grows by the title warnings
    only. *)
Theorem total_pages_default_zero meta_ttl work_id g w :
  turtle_parse meta_ttl = Some g ->
  (forall id, id ∈ get_vol_img_grp_id_list g work_id ->
              has_volume_number g id /\ title_readable g id) ->
  NoDup (drawn (uuid_calls w) (List.length (get_vol_img_grp_id_list g work_id))) ->
  exists m w',
    parse_volume_info meta_ttl work_id w = (Ok m, w')
    /\ (forall id,
          id ∈ get_vol_img_grp_id_list g work_id ->
          lacks_total_pages g id ->
          exists uid r,
            (uid, r) ∈ m /\ image_group_id r = id /\ total_pages r = 0%Z)
    /\ (forall uid r,
          (uid, r) ∈ m -> lacks_total_pages g (image_group_id r) ->
          total_pages r = 0%Z)
    /\ log w' = log w ++ title_warnings g work_id (get_vol_img_grp_id_list g work_id).
Proof.
  intros Hg Hd Hnd. destruct (described_records g _ Hd) as [rs Hrs].
  rewrite (parse_volume_info_parsed _ _ g _ Hg).
  pose proof (volumes_outcome_fresh g _ rs (uuid_calls w) [] Hrs Hnd) as Hm.
  rewrite Hm, (processed_all g _ rs Hrs). simpl.
  eexists _, _. split; [reflexivity|]. split; [|split; [|reflexivity]].
  - intros id Hin Hl.
    destruct (zip_covers g _ rs Hrs
                (drawn (uuid_calls w) (List.length (get_vol_img_grp_id_list g work_id)))
                id (drawn_length _ _) Hin) as (uid & r & Hzip & Hr).
    exists uid, r. split; [done|]. split; [by apply (record_of_id g)|].
    by apply (lacks_total_pages_default g id).
  - intros uid r Hin Hl.
    destruct (volumes_outcome_elem g _ _ _ _ _ _ Hm Hin) as [Hnil|(id & _ & Hr)].
    + by apply elem_of_nil in Hnil.
    + rewrite (record_of_id g id r Hr) in Hl.
      by apply (lacks_total_pages_default g id).
Qed.

(** C9: run [parse_volume_info] twice in a row on the same text and work
    identifier, all identifiers drawn in the two runs being pairwise
    distinct.  Either both runs raise the same exception, or both return a
    mapping: the two mappings hold the same records in the same order (one
    per volume, with equal [image_group_id], [title], [volume_number] and
    [total_pages]), each under the identifiers drawn in its own run, so that
    no key of the first mapping is a key of the second. *)
Theorem rerun_same_records_new_keys meta_ttl work_id w r1 w1 r2 w2 :
  parse_volume_info meta_ttl work_id w = (r1, w1) ->
  parse_volume_info meta_ttl work_id w1 = (r2, w2) ->
  NoDup (drawn (uuid_calls w) (uuid_calls w2 - uuid_calls w)) ->
  match r1, r2 with
  | Ok m1, Ok m2 =>
      dict_values m1 = dict_values m2
      /\ dict_keys m1 = drawn (uuid_calls w) (List.length m1)
      /\ dict_keys m2 = drawn (uuid_calls w1) (List.length m2)
      /\ (forall k, k ∈ dict_keys m1 -> k ∉ dict_keys m2)
      /\ (forall g, turtle_parse meta_ttl = Some g ->
                    map image_group_id (dict_values m1)
                    = get_vol_img_grp_id_list g work_id)
  | Raise e1, Raise e2 => e1 = e2
  | _, _ => False
  end.
Proof.
  destruct (turtle_parse meta_ttl) as [g|] eqn:Hg.
  - rewrite !(parse_volume_info_parsed _ _ g _ Hg).
    set (ids := get_vol_img_grp_id_list g work_id).
    intros [= <- <-]. simpl. intros [= <- <-]. simpl.
    destruct (volumes_outcome g ids (uuid_calls w) []) as [m1|e1] eqn:H1.
    + destruct (volumes_outcome_inv g _ _ _ _ H1) as [rs Hrs].
      rewrite (processed_all g _ rs Hrs).
      pose proof (Forall2_length _ _ _ Hrs) as Hlen.
      replace (uuid_calls w + List.length ids + List.length ids - uuid_calls w)
        with (List.length ids + List.length ids) by lia.
      rewrite drawn_app. intros Hnd.
      apply NoDup_app in Hnd as (Hnd1 & Hdisj & Hnd2).
      rewrite (volumes_outcome_fresh g _ rs) in H1 by done.
      rewrite (volumes_outcome_fresh g _ rs) by done.
      injection H1 as <-. simpl. unfold dict_values, dict_keys.
      rewrite !length_zip_with, !drawn_length, <- Hlen, Nat.min_id.
      rewrite !snd_zip, !fst_zip by (rewrite drawn_length; lia).
      repeat split; try done.
      intros g' [= <-]. by apply (records_ids g).
    + rewrite (volumes_outcome_raise_indep g ids _ _ e1 _ [] H1). done.
  - unfold parse_volume_info. rewrite Hg.
    intros [= <- <-]. simpl. intros [= <- <-]. simpl. intros _.
    repeat split; try done. intros k Hk. by apply elem_of_nil in Hk.
Qed.

End Extractor.

(** ** The catalog fetcher *)

Section Fetcher.
Context `{!Externals}.

(** C3, as amended: [get_ttl] never raises.  Whenever the HTTP client
    returns a response, whatever its status code, [get_ttl] returns the body
    text of that response and prints nothing but its first line; when the
    client raises, it prints the notice and returns the empty string. *)
Theorem get_ttl_returns work_id w :
  get_ttl work_id w =
    match requests_get ("http://purl.bdrc.io/graph/" ++ work_id ++ ".ttl")%string with
    | Ok ttl =>
        (Ok (text ttl),
         mkWorld (heap w) (log w) (stdout w ++ ["Downloading ttl file"])
                 (uuid_calls w))
    | Raise _ =>
        (Ok EmptyString,
         mkWorld (heap w) (log w)
                 (stdout w ++ ["Downloading ttl file"; " TTL not Found!!!"])
                 (uuid_calls w))
    end
  /\ exists body w', get_ttl work_id w = (Ok body, w').
Proof.
  unfold get_ttl. run_monad. simpl.
  destruct (requests_get _) as [ttl|e]; simpl.
  - split; [done|eauto].
  - rewrite <- app_assoc. split; [done|eauto].
Qed.

End Fetcher.

(** ** The merger *)

Section Merger.
Context `{!Externals}.

Lemma assignment_fails (old_meta : val) (v : val) (w : World) :
  no_source_metadata (heap w) old_meta ->
  exists e,
    (source_metadata <- getitem old_meta "source_metadata" ;;
     setitem source_metadata "volume" v) w = (Raise e, w).
Proof.
  unfold no_source_metadata, bind, getitem, setitem.
  destruct old_meta as [s|l|vi]; [eauto| |done].
  destruct (heap w !! l) as [[d|items]|]; [|eauto|done].
  destruct (dict_get key_is (PyStr "source_metadata") d) as [[s|l2|vi]|];
    [eauto| |done|eauto].
  destruct (heap w !! l2) as [[d2|items]|]; [done|eauto|done].
Qed.

Lemma assignment_succeeds (old_meta : val) (v : val) (w : World) l d l2 d2 :
  source_metadata_at (heap w) old_meta l d l2 d2 ->
  (source_metadata <- getitem old_meta "source_metadata" ;;
   setitem source_metadata "volume" v) w
  = (Ok tt, mkWorld (<[l2 := ODict (dict_set key_is (PyStr "volume") v d2)]> (heap w))
                    (log w) (stdout w) (uuid_calls w)).
Proof.
  intros (-> & Hl & Hsm & Hl2). unfold bind, getitem, setitem.
  by rewrite Hl, Hsm, Hl2.
Qed.

(** C4, as amended: let [old_meta] be a mapping without a
    [source_metadata] key, or with a value under it that is not a mapping.
    Whenever [parse_volume_info] returns, [get_new_meta] returns [old_meta]
    itself, the store of the document's objects is unchanged, and exactly
    one warning, which starts with the work identifier, is added to the
    log: the failure of the assignment is swallowed. *)
Theorem missing_source_metadata_is_swallowed old_meta meta_ttl work_id w vi w1 :
  no_source_metadata (heap w) old_meta ->
  parse_volume_info meta_ttl work_id w = (Ok vi, w1) ->
  get_new_meta old_meta meta_ttl work_id w =
    (Ok old_meta,
     mkWorld (heap w)
             (log w1 ++ [(WARNING, (work_id ++ " doesn't have proper meta.yml")%string)])
             (stdout w1) (uuid_calls w1)).
Proof.
  intros Hno Hrun.
  pose proof (parse_volume_info_heap meta_ttl work_id w) as Hheap.
  rewrite Hrun in Hheap. simpl in Hheap.
  unfold get_new_meta. unfold bind at 1. rewrite Hrun.
  unfold bind at 1. unfold try_except.
  rewrite <- Hheap in Hno.
  destruct (assignment_fails old_meta (VVolInfo vi) w1 Hno) as [e ->].
  unfold logging_warning, ret. by rewrite Hheap.
Qed.

(** C8: when the merge succeeds, that is, [parse_volume_info] returns and
    [old_meta] is a mapping whose [source_metadata] is a mapping,
    [get_new_meta] returns [old_meta] itself and writes one object only, the
    [source_metadata] mapping, in which it sets the [volume] entry to the
    new volume mapping: every other object of the store is as before (so
    are all keys and values of the document outside that mapping), the
    other entries of the [source_metadata] mapping are the same in the same
    order, and log and standard output are as [parse_volume_info] left
    them. *)
Theorem merge_changes_only_volume old_meta meta_ttl work_id w vi w1 l d l2 d2 :
  parse_volume_info meta_ttl work_id w = (Ok vi, w1) ->
  source_metadata_at (heap w) old_meta l d l2 d2 ->
  exists w2 d2',
    get_new_meta old_meta meta_ttl work_id w = (Ok old_meta, w2)
    /\ heap w2 = <[l2 := ODict d2']> (heap w)
    /\ (forall l', l' <> l2 -> heap w2 !! l' = heap w !! l')
    /\ d2' = dict_set key_is (PyStr "volume") (VVolInfo vi) d2
    /\ dict_get key_is (PyStr "volume") d2' = Some (VVolInfo vi)
    /\ entries_except "volume" d2' = entries_except "volume" d2
    /\ (forall k, key_is k (PyStr "volume") = false ->
                  dict_get key_is k d2' = dict_get key_is k d2)
    /\ log w2 = log w1 /\ stdout w2 = stdout w1 /\ uuid_calls w2 = uuid_calls w1.
Proof.
  intros Hrun Hshape.
  pose proof (parse_volume_info_heap meta_ttl work_id w) as Hheap.
  rewrite Hrun in Hheap. simpl in Hheap.
  unfold get_new_meta. unfold bind at 1. rewrite Hrun.
  unfold bind at 1. unfold try_except.
  rewrite <- Hheap in Hshape.
  rewrite (assignment_succeeds old_meta (VVolInfo vi) w1 l d l2 d2 Hshape).
  unfold ret. eexists _, _. split; [reflexivity|]. simpl. rewrite Hheap.
  split; [reflexivity|].
  split; [intros l' Hne; by rewrite lookup_insert_ne|].
  split; [reflexivity|].
  split; [apply dict_get_set_eq|].
  split; [apply dict_set_frame|].
  split; [intros k Hk; by apply dict_get_set_ne|].
  done.
Qed.

(** C10: suppose the Turtle parser accepts the empty text, which has no
    statement, and yields the empty graph.  The empty text is what
    [get_ttl] returns when the HTTP client raises.  On it
    [parse_volume_info] returns the empty mapping and changes nothing: no
    log entry, no identifier drawn.  For a document whose [source_metadata]
    is a mapping, [get_new_meta] then returns the document with the
    [volume] entry of that mapping set to the empty mapping, whatever was
    under [volume] before, and without any log entry or output. *)
Theorem empty_text_overwrites_volume old_meta work_id w l d l2 d2 :
  turtle_parse EmptyString = Some [] ->
  source_metadata_at (heap w) old_meta l d l2 d2 ->
  (forall e, requests_get ("http://purl.bdrc.io/graph/" ++ work_id ++ ".ttl")%string
             = Raise e ->
             fst (get_ttl work_id w) = Ok EmptyString)
  /\ parse_volume_info EmptyString work_id w = (Ok [], w)
  /\ exists w2 d2',
       get_new_meta old_meta EmptyString work_id w = (Ok old_meta, w2)
       /\ heap w2 = <[l2 := ODict d2']> (heap w)
       /\ d2' = dict_set key_is (PyStr "volume") (VVolInfo []) d2
       /\ dict_get key_is (PyStr "volume") d2' = Some (VVolInfo [])
       /\ entries_except "volume" d2' = entries_except "volume" d2
       /\ log w2 = log w /\ stdout w2 = stdout w.
Proof.
  intros Hempty Hshape.
  assert (parse_volume_info EmptyString work_id w = (Ok [], w)) as Hrun.
  { rewrite (parse_volume_info_parsed _ _ [] _ Hempty).
    unfold get_vol_img_grp_id_list, title_warnings. simpl.
    rewrite app_nil_r, Nat.add_0_r. by destruct w. }
  split.
  { intros e He. unfold get_ttl. run_monad. simpl. by rewrite He. }
  split; [done|].
  unfold get_new_meta. unfold bind at 1. rewrite Hrun.
  unfold bind at 1. unfold try_except.
  rewrite (assignment_succeeds old_meta (VVolInfo []) w l d l2 d2 Hshape).
  unfold ret. eexists _, _. split; [reflexivity|]. simpl.
  split; [reflexivity|].
  split; [reflexivity|].
  split; [apply dict_get_set_eq|].
  split; [apply dict_set_frame|].
  done.
Qed.

End Merger.

(** * The program on concrete inputs *)

Section Runs.
Import Sample.

Example get_img_grp_id_of_uri :
  get_img_grp_id "http://purl.bdrc.io/resource/I1001" = "I1001".
Proof. reflexivity. Qed.

Example get_img_grp_id_without_slash : get_img_grp_id "I1001" = "I1001".
Proof. reflexivity. Qed.

Example get_img_grp_id_trailing_slash :
  get_img_grp_id "http://purl.bdrc.io/resource/" = "".
Proof. reflexivity. Qed.

Example get_ttl_online :
  @get_ttl online work_id (start ∅)
  = (Ok two_volumes_ttl, mkWorld ∅ [] ["Downloading ttl file"] 0).
Proof. reflexivity. Qed.

Example get_ttl_offline :
  @get_ttl offline work_id (start ∅)
  = (Ok "", mkWorld ∅ [] ["Downloading ttl file"; " TTL not Found!!!"] 0).
Proof. reflexivity. Qed.

(** The whole pipeline on the work with two volumes and the document
    [{source_metadata: {}}]. *)
Example two_volumes_merged :
  (meta_ttl <- @get_ttl online work_id ;;
   @get_new_meta online (VRef 1%positive) meta_ttl work_id) (start fresh_heap)
  = (Ok (VRef 1%positive),
     mkWorld
       (<[1%positive := ODict [ (PyStr "source_metadata", VRef 2%positive) ]]>
        (<[2%positive := ODict [ (PyStr "volume", VVolInfo first_run) ]]> ∅))
       [no_title_I1002] ["Downloading ttl file"] 2).
Proof. by vm_compute. Qed.

Lemma two_volumes_ids :
  @get_vol_img_grp_id_list two_volumes work_id = ["I1001"; "I1002"].
Proof. reflexivity. Qed.

Lemma two_volumes_described id :
  id ∈ @get_vol_img_grp_id_list two_volumes work_id ->
  @has_volume_number online two_volumes id /\ title_readable two_volumes id.
Proof.
  rewrite two_volumes_ids. intros Hin.
  repeat (apply elem_of_cons in Hin as [->|Hin]); [| |by apply elem_of_nil in Hin].
  - split.
    + eexists _, _. split; reflexivity.
    + intros t [= <-] _. eauto.
  - split.
    + eexists _, _. split; reflexivity.
    + intros t Ht. discriminate Ht.
Qed.

Lemma four_identifiers_distinct : NoDup (@drawn online 0 4).
Proof. apply (bool_decide_unpack _). by vm_compute. Qed.

Lemma two_identifiers_distinct : NoDup (@drawn online 0 2).
Proof. apply (bool_decide_unpack _). by vm_compute. Qed.

Lemma meta_heap_shape :
  source_metadata_at meta_heap (VRef 1%positive)
       1%positive top_entries 2%positive source_entries.
Proof. repeat split; reflexivity. Qed.

(** The run of C7 on a text that is not Turtle. *)
Lemma bad_syntax_gives_empty_mapping_on_bad_ttl :
  @turtle_parse online bad_ttl = None
  /\ @parse_volume_info online bad_ttl work_id (start ∅)
     = (Ok [], mkWorld ∅ [(WARNING, "W22083.ttl Contains bad syntax")] [] 0).
Proof.
  split; [reflexivity|].
  apply (@bad_syntax_gives_empty_mapping online bad_ttl work_id (start ∅)).
  reflexivity.
Defined.

(** The run of C2 on a work whose only volume has no volume number. *)
Lemma bad_volume_number_propagates_on_no_number :
  @turtle_parse online no_number_ttl = Some no_number
  /\ "I1001" ∈ @get_vol_img_grp_id_list no_number work_id
  /\ @lacks_volume_number online no_number "I1001"
  /\ (forall acc w0,
        title_readable no_number "I1001" ->
        exists e w0',
          @volume_step online no_number work_id acc "I1001" w0 = (Raise e, w0')
          /\ (e = TypeError \/ e = ValueError))
  /\ exists e w',
       @parse_volume_info online no_number_ttl work_id (start ∅) = (Raise e, w')
       /\ (e = AttributeError \/ e = TypeError \/ e = ValueError)
       /\ heap w' = heap (start ∅).
Proof.
  assert ("I1001" ∈ @get_vol_img_grp_id_list no_number work_id) as Hin.
  { by apply list_elem_of_singleton. }
  assert (@lacks_volume_number online no_number "I1001") as Hlacks.
  { left. reflexivity. }
  split; [reflexivity|]. split; [exact Hin|]. split; [exact Hlacks|].
  apply (@bad_volume_number_propagates online no_number_ttl work_id no_number
           "I1001" (start ∅));
    [reflexivity|exact Hin|exact Hlacks].
Defined.

(** The run of C1 on the work with two volumes. *)
Lemma one_record_per_volume_on_two_volumes :
  @turtle_parse online two_volumes_ttl = Some two_volumes
  /\ (forall id, id ∈ @get_vol_img_grp_id_list two_volumes work_id ->
                 @has_volume_number online two_volumes id
                 /\ title_readable two_volumes id)
  /\ NoDup (@drawn online 0 2)
  /\ exists m w',
       @parse_volume_info online two_volumes_ttl work_id (start ∅) = (Ok m, w')
       /\ List.length m = 2
       /\ dict_keys m = @drawn online 0 (List.length m)
       /\ NoDup (dict_keys m).
Proof.
  split; [reflexivity|]. split; [exact two_volumes_described|].
  split; [exact two_identifiers_distinct|].
  apply (@one_record_per_volume online two_volumes_ttl work_id two_volumes (start ∅));
    [reflexivity|exact two_volumes_described|exact two_identifiers_distinct].
Defined.

(** C1 as stated fails: the text below has one "has volume" relation, whose
    object ends in the identifier I1001, and [parse_volume_info] returns no
    mapping for it, because the volume has no volume number. *)
Lemma no_record_without_volume_number :
  @turtle_parse online no_number_ttl = Some no_number
  /\ map (fun volume => get_img_grp_id (node_str volume))
         (objects no_number (BDR work_id) (BDO "instanceHasVolume")) = ["I1001"]
  /\ NoDup (@drawn online 0 1)
  /\ @parse_volume_info online no_number_ttl work_id (start ∅)
     = (Raise TypeError, mkWorld ∅ [no_title_I1001] [] 1)
  /\ ~ (exists m w',
          @parse_volume_info online no_number_ttl work_id (start ∅) = (Ok m, w')
          /\ List.length m = 1).
Proof.
  split; [reflexivity|]. split; [reflexivity|].
  split; [apply (bool_decide_unpack _); by vm_compute|].
  split; [reflexivity|].
  intros (m & w' & Hrun & _). discriminate Hrun.
Qed.

(** The run of C5 on the work with two volumes, listed in the text in the
    order I1002, I1001. *)
Lemma records_follow_sorted_ids_on_two_volumes :
  @turtle_parse online two_volumes_ttl = Some two_volumes
  /\ @parse_volume_info online two_volumes_ttl work_id (start ∅)
     = (Ok first_run, mkWorld ∅ [no_title_I1002] [] 2)
  /\ NoDup (@drawn online 0 (List.length (@get_vol_img_grp_id_list two_volumes work_id)))
  /\ StronglySorted str_le (@get_vol_img_grp_id_list two_volumes work_id)
  /\ @get_vol_img_grp_id_list two_volumes work_id
     ≡ₚ map (fun volume => get_img_grp_id (node_str volume))
            (objects two_volumes (BDR work_id) (BDO "instanceHasVolume"))
  /\ map image_group_id (dict_values first_run)
     = @get_vol_img_grp_id_list two_volumes work_id.
Proof.
  split; [reflexivity|]. split; [reflexivity|].
  split; [exact two_identifiers_distinct|].
  apply (@records_follow_sorted_ids online two_volumes_ttl work_id two_volumes
           (start ∅) first_run (mkWorld ∅ [no_title_I1002] [] 2));
    [reflexivity|reflexivity|exact two_identifiers_distinct].
Defined.

(** The run of C6 on the work with two volumes, the second of which has no
    total-pages relation: its record is there, with [total_pages] 0. *)
Lemma total_pages_default_zero_on_two_volumes :
  @turtle_parse online two_volumes_ttl = Some two_volumes
  /\ (forall id, id ∈ @get_vol_img_grp_id_list two_volumes work_id ->
                 @has_volume_number online two_volumes id
                 /\ title_readable two_volumes id)
  /\ NoDup (@drawn online 0 (List.length (@get_vol_img_grp_id_list two_volumes work_id)))
  /\ "I1002" ∈ @get_vol_img_grp_id_list two_volumes work_id
  /\ @lacks_total_pages online two_volumes "I1002"
  /\ exists m w',
       @parse_volume_info online two_volumes_ttl work_id (start ∅) = (Ok m, w')
       /\ (exists uid r,
             (uid, r) ∈ m /\ image_group_id r = "I1002" /\ total_pages r = 0%Z)
       /\ log w' = [no_title_I1002].
Proof.
  assert ("I1002" ∈ @get_vol_img_grp_id_list two_volumes work_id) as Hin.
  { rewrite two_volumes_ids. apply elem_of_cons. right. by apply elem_of_cons; left. }
  assert (@lacks_total_pages online two_volumes "I1002") as Hlacks.
  { left. reflexivity. }
  split; [reflexivity|]. split; [exact two_volumes_described|].
  split; [exact two_identifiers_distinct|]. split; [exact Hin|].
  split; [exact Hlacks|].
  destruct (@total_pages_default_zero online two_volumes_ttl work_id two_volumes
              (start ∅) eq_refl two_volumes_described two_identifiers_distinct)
    as (m & w' & Hrun & Hlisted & _ & Hlog).
  exists m, w'. split; [exact Hrun|]. split; [exact (Hlisted "I1002" Hin Hlacks)|].
  exact Hlog.
Defined.

(** Two runs of C9 in a row on the work with two volumes. *)
Lemma rerun_same_records_new_keys_on_two_volumes :
  @parse_volume_info online two_volumes_ttl work_id (start ∅)
  = (Ok first_run, mkWorld ∅ [no_title_I1002] [] 2)
  /\ @parse_volume_info online two_volumes_ttl work_id (mkWorld ∅ [no_title_I1002] [] 2)
     = (Ok second_run, mkWorld ∅ [no_title_I1002; no_title_I1002] [] 4)
  /\ NoDup (@drawn online 0 4)
  /\ dict_values first_run = dict_values second_run
  /\ dict_keys first_run = @drawn online 0 2
  /\ dict_keys second_run = @drawn online 2 2
  /\ (forall k, k ∈ dict_keys first_run -> k ∉ dict_keys second_run)
  /\ (forall g, @turtle_parse online two_volumes_ttl = Some g ->
                map image_group_id (dict_values first_run)
                = @get_vol_img_grp_id_list g work_id).
Proof.
  split; [reflexivity|]. split; [reflexivity|].
  split; [exact four_identifiers_distinct|].
  apply (@rerun_same_records_new_keys online two_volumes_ttl work_id
           (start ∅) (Ok first_run) (mkWorld ∅ [no_title_I1002] [] 2)
           (Ok second_run) (mkWorld ∅ [no_title_I1002; no_title_I1002] [] 4));
    [reflexivity|reflexivity|exact four_identifiers_distinct].
Defined.

(** C3 as stated fails for responses that are not 2xx: the server answers
    404, the HTTP client returns that response without raising, and
    [get_ttl] returns its body, not the empty string, and prints no
    notice. *)
Lemma not_found_body_is_returned :
  @requests_get missing graph_url
  = Ok (mkResponse 404 "<html><body>Not Found</body></html>")
  /\ @get_ttl missing work_id (start ∅)
     = (Ok "<html><body>Not Found</body></html>",
        mkWorld ∅ [] ["Downloading ttl file"] 0)
  /\ fst (@get_ttl missing work_id (start ∅)) <> Ok EmptyString
  /\ " TTL not Found!!!" ∉ stdout (snd (@get_ttl missing work_id (start ∅))).
Proof.
  split; [reflexivity|]. split; [reflexivity|]. split; [discriminate|].
  intros Hin. apply list_elem_of_singleton in Hin. discriminate Hin.
Qed.

(** The run of C4 on a document without [source_metadata]. *)
Lemma missing_source_metadata_is_swallowed_on_bare :
  no_source_metadata (heap (start bare_heap)) (VRef 1%positive)
  /\ @parse_volume_info online two_volumes_ttl work_id (start bare_heap)
     = (Ok first_run, mkWorld bare_heap [no_title_I1002] [] 2)
  /\ @get_new_meta online (VRef 1%positive) two_volumes_ttl work_id (start bare_heap)
     = (Ok (VRef 1%positive), mkWorld bare_heap [no_title_I1002; no_meta] [] 2).
Proof.
  assert (no_source_metadata (heap (start bare_heap)) (VRef 1%positive)) as Hno.
  { by vm_compute. }
  split; [exact Hno|]. split; [reflexivity|].
  apply (@missing_source_metadata_is_swallowed online (VRef 1%positive)
           two_volumes_ttl work_id (start bare_heap) first_run
           (mkWorld bare_heap [no_title_I1002] [] 2));
    [exact Hno|reflexivity].
Defined.

(** C4 as stated fails: the document has no [source_metadata] key, but the
    only volume of the work has no volume number, so [get_new_meta] raises
    the [TypeError] of [parse_volume_info] instead of returning the
    document, and logs no warning about the metadata. *)
Lemma merger_raises_without_volume_number :
  no_source_metadata (heap (start bare_heap)) (VRef 1%positive)
  /\ @get_new_meta online (VRef 1%positive) no_number_ttl work_id (start bare_heap)
     = (Raise TypeError, mkWorld bare_heap [no_title_I1001] [] 1)
  /\ ~ (exists v w',
          @get_new_meta online (VRef 1%positive) no_number_ttl work_id (start bare_heap)
          = (Ok v, w')).
Proof.
  split; [by vm_compute|]. split; [reflexivity|].
  intros (v & w' & Hrun). discriminate Hrun.
Qed.

(** The run of C8 on a document with a [source_metadata] mapping. *)
Lemma merge_changes_only_volume_on_meta :
  @parse_volume_info online two_volumes_ttl work_id (start meta_heap)
  = (Ok first_run, mkWorld meta_heap [no_title_I1002] [] 2)
  /\ source_metadata_at (heap (start meta_heap)) (VRef 1%positive)
       1%positive top_entries 2%positive source_entries
  /\ exists w2 d2',
       @get_new_meta online (VRef 1%positive) two_volumes_ttl work_id (start meta_heap)
       = (Ok (VRef 1%positive), w2)
       /\ heap w2 = <[2%positive := ODict d2']> (heap (start meta_heap))
       /\ (forall l', l' <> 2%positive -> heap w2 !! l' = heap (start meta_heap) !! l')
       /\ d2' = dict_set key_is (PyStr "volume") (VVolInfo first_run) source_entries
       /\ dict_get key_is (PyStr "volume") d2' = Some (VVolInfo first_run)
       /\ entries_except "volume" d2'
          = entries_except "volume" source_entries
       /\ (forall k, key_is k (PyStr "volume") = false ->
                     dict_get key_is k d2'
                     = dict_get key_is k source_entries)
       /\ log w2 = [no_title_I1002] /\ stdout w2 = [] /\ uuid_calls w2 = 2.
Proof.
  split; [reflexivity|]. split; [exact meta_heap_shape|].
  apply (@merge_changes_only_volume online (VRef 1%positive) two_volumes_ttl work_id
           (start meta_heap) first_run (mkWorld meta_heap [no_title_I1002] [] 2)
           1%positive top_entries 2%positive source_entries);
    [reflexivity|exact meta_heap_shape].
Defined.

(** The run of C10 without connection, on a document that already has a
    [volume] entry. *)
Lemma empty_text_overwrites_volume_on_meta :
  @turtle_parse offline EmptyString = Some []
  /\ source_metadata_at (heap (start meta_heap)) (VRef 1%positive)
       1%positive top_entries 2%positive source_entries
  /\ (forall e, @requests_get offline graph_url = Raise e ->
                fst (@get_ttl offline work_id (start meta_heap)) = Ok EmptyString)
  /\ @parse_volume_info offline EmptyString work_id (start meta_heap)
     = (Ok [], start meta_heap)
  /\ exists w2 d2',
       @get_new_meta offline (VRef 1%positive) EmptyString work_id (start meta_heap)
       = (Ok (VRef 1%positive), w2)
       /\ heap w2 = <[2%positive := ODict d2']> (heap (start meta_heap))
       /\ d2' = dict_set key_is (PyStr "volume") (VVolInfo []) source_entries
       /\ dict_get key_is (PyStr "volume") d2' = Some (VVolInfo [])
       /\ entries_except "volume" d2'
          = entries_except "volume" source_entries
       /\ log w2 = [] /\ stdout w2 = [].
Proof.
  split; [reflexivity|]. split; [exact meta_heap_shape|].
  apply (@empty_text_overwrites_volume offline (VRef 1%positive) work_id
           (start meta_heap) 1%positive top_entries 2%positive source_entries);
    [reflexivity|exact meta_heap_shape].
Defined.

End Runs.

(** * Further properties *)

(** ** Image group identifiers *)

Lemma append_cons a s t : (String a s ++ t)%string = String a (s ++ t)%string.
Proof. reflexivity. Qed.

Lemma split_nonempty c s : exists piece pieces, split c s = piece :: pieces.
Proof.
  destruct s as [|a rest]; simpl; [eauto|].
  destruct (Ascii.eqb a c); [eauto|]. destruct (split c rest); eauto.
Qed.

Lemma split_app c p rest :
  split c (p ++ String c rest) = split c p ++ split c rest.
Proof.
  induction p as [|a p IH]; simpl.
  - by rewrite Ascii.eqb_refl.
  - destruct (Ascii.eqb a c); [by rewrite IH|].
    rewrite IH. by destruct (split_nonempty c p) as (piece & pieces & ->).
Qed.

Lemma split_clean c s : contains c s = false -> split c s = [s].
Proof.
  induction s as [|a rest IH]; simpl; [done|].
  destruct (Ascii.eqb a c); simpl; [done|]. by intros ->%IH.
Qed.

Lemma last_app_cons {A} (l1 : list A) x l2 d :
  List.last (l1 ++ x :: l2) d = List.last (x :: l2) d.
Proof.
  induction l1 as [|y l1 IH]; [done|].
  change ((y :: l1) ++ x :: l2) with (y :: (l1 ++ x :: l2)).
  rewrite <- IH. by destruct l1.
Qed.

Lemma last_split_app c p rest :
  List.last (split c (p ++ String c rest)) EmptyString
  = List.last (split c rest) EmptyString.
Proof.
  rewrite split_app. destruct (split_nonempty c rest) as (piece & pieces & ->).
  apply last_app_cons.
Qed.

(** A string has no [c], or splits at its last [c]. *)
Lemma last_occurrence c s :
  contains c s = false
  \/ exists p x, s = (p ++ String c x)%string /\ contains c x = false.
Proof.
  induction s as [|a rest IH]; [by left|].
  destruct IH as [Hclean|(p & x & -> & Hx)].
  - simpl. destruct (Ascii.eqb a c) eqn:Ha.
    + apply Ascii.eqb_eq in Ha as ->. right. by exists EmptyString, rest.
    + by left.
  - right. exists (String a p), x. by rewrite append_cons.
Qed.

(** X1: the identifier of a URI is what follows its last slash: for an
    identifier without slash, [get_img_grp_id] returns it from any URI that
    ends in a slash followed by it, from the bare identifier, and in
    particular from the node [BDR[id]] that the loop of [parse_volume_info]
    builds back from it. *)
Theorem get_img_grp_id_after_last_slash prefix id :
  contains "/" id = false ->
  get_img_grp_id (prefix ++ "/" ++ id) = id
  /\ get_img_grp_id id = id
  /\ get_img_grp_id (BDR id) = id.
Proof.
  intros Hid. unfold get_img_grp_id.
  assert (forall p, List.last (split "/" (p ++ String "/" id)) EmptyString = id) as Hp.
  { intros p. rewrite last_split_app. by rewrite (split_clean _ _ Hid). }
  split; [apply Hp|]. split; [by rewrite (split_clean _ _ Hid)|].
  apply (Hp "http://purl.bdrc.io/resource").
Qed.

(** X2: whatever the URI, the identifier returned has no slash in it, and
    the URI is that identifier alone or ends in a slash followed by it (so a
    URI that ends in a slash has the empty identifier). *)
Theorem get_img_grp_id_is_last_segment URI :
  contains "/" (get_img_grp_id URI) = false
  /\ (URI = get_img_grp_id URI
      \/ exists prefix, URI = (prefix ++ "/" ++ get_img_grp_id URI)%string).
Proof.
  unfold get_img_grp_id.
  destruct (last_occurrence "/" URI) as [Hclean|(p & x & -> & Hx)].
  - rewrite (split_clean _ _ Hclean). simpl. split; [done|]. by left.
  - rewrite last_split_app, (split_clean _ _ Hx). simpl.
    split; [done|]. right. by exists p.
Qed.

(** ** The list of identifiers *)

Lemma is_uri_true pattern n : is_uri pattern n = true <-> n = URIRef pattern.
Proof.
  destruct n as [iri| |]; simpl; [|split; done..].
  rewrite String.eqb_eq. split; congruence.
Qed.

Lemma elem_of_objects g s p o :
  o ∈ objects g s p <-> (URIRef s, URIRef p, o) ∈ g.
Proof.
  unfold objects. rewrite list_elem_of_fmap. split.
  - intros ([[s' p'] o'] & -> & Hin). apply list_elem_of_In, filter_In in Hin.
    destruct Hin as [Hin Hm]. simpl in Hm. apply andb_true_iff in Hm as [Hs Hp].
    apply is_uri_true in Hs, Hp. subst. by apply list_elem_of_In.
  - intros Hin. exists (URIRef s, URIRef p, o). split; [done|].
    apply list_elem_of_In, filter_In. split; [by apply list_elem_of_In|].
    simpl. by rewrite !String.eqb_refl.
Qed.

Lemma objects_perm g g' s p : g ≡ₚ g' -> objects g s p ≡ₚ objects g' s p.
Proof.
  intros Hperm. unfold objects. apply fmap_Permutation.
  induction Hperm as [|t g1 g2 _ IH|t1 t2 g1|g1 g2 g3 _ IH1 _ IH2]; simpl.
  - done.
  - destruct (_ && _); [by constructor|done].
  - do 2 destruct (_ && _); try done. apply perm_swap.
  - by etrans.
Qed.

Lemma get_vol_img_grp_id_list_proper g g' work_id :
  g ≡ₚ g' ->
  get_vol_img_grp_id_list g work_id = get_vol_img_grp_id_list g' work_id.
Proof.
  intros Hperm. unfold get_vol_img_grp_id_list.
  apply (StronglySorted_unique str_le).
  - apply StronglySorted_merge_sort; apply _.
  - apply StronglySorted_merge_sort; apply _.
  - rewrite !merge_sort_Permutation. apply fmap_Permutation.
    by apply objects_perm.
Qed.

(** X3: the list of identifiers does not depend on the order in which the
    graph yields its triples: two graphs with the same triples give the same
    list. *)
Theorem ids_independent_of_triple_order g g' work_id :
  g ≡ₚ g' ->
  get_vol_img_grp_id_list g work_id = get_vol_img_grp_id_list g' work_id.
Proof.
  intros Hperm. unfold get_vol_img_grp_id_list.
  assert (merge_sort str_le
            (map (fun volume => get_img_grp_id (node_str volume))
                 (objects g (BDR work_id) (BDO "instanceHasVolume")))
          ≡ₚ merge_sort str_le
               (map (fun volume => get_img_grp_id (node_str volume))
                    (objects g' (BDR work_id) (BDO "instanceHasVolume")))) as Hsame.
  { rewrite !merge_sort_Permutation. apply fmap_Permutation.
    by apply objects_perm. }
  apply (StronglySorted_unique str_le); [| |exact Hsame];
    apply StronglySorted_merge_sort; apply _.
Qed.

Lemma ids_are_trailing_segments_aux g work_id id :
  id ∈ get_vol_img_grp_id_list g work_id ->
  exists volume,
    (URIRef (BDR work_id), URIRef (BDO "instanceHasVolume"), volume) ∈ g
    /\ get_img_grp_id (node_str volume) = id.
Proof.
  unfold get_vol_img_grp_id_list. rewrite merge_sort_Permutation.
  rewrite list_elem_of_fmap.
  intros (volume & -> & Hin). exists volume. by rewrite <- elem_of_objects.
Qed.

(** X4: an identifier is in the list exactly when the graph has a triple
    from the work's node, with the "has volume" predicate, to an object
    whose string ends in that identifier; the object may be any node, and
    triples of other subjects or predicates play no part. *)
Theorem ids_are_trailing_segments g work_id id :
  id ∈ get_vol_img_grp_id_list g work_id
  <-> exists volume,
        (URIRef (BDR work_id), URIRef (BDO "instanceHasVolume"), volume) ∈ g
        /\ get_img_grp_id (node_str volume) = id.
Proof.
  unfold get_vol_img_grp_id_list. rewrite merge_sort_Permutation.
  rewrite list_elem_of_fmap. split.
  - intros (volume & -> & Hin). exists volume. by rewrite <- elem_of_objects.
  - intros (volume & Hin & <-). exists volume. by rewrite elem_of_objects.
Qed.

(** ** Keys of a dictionary *)

Lemma dict_keys_set {K V} `{EqDecision K} (eqb : K -> K -> bool) (k : K) (v : V)
    (d : dict K V) :
  (forall k', eqb k' k = true <-> k' = k) ->
  dict_keys (dict_set eqb k v d)
  = if decide (k ∈ dict_keys d) then dict_keys d else dict_keys d ++ [k].
Proof.
  intros Heqb. unfold dict_keys. induction d as [|[k' v'] d IH].
  - cbn [dict_set map fst]. case_decide as Hin; [|done].
    by apply elem_of_nil in Hin.
  - cbn [dict_set map fst]. destruct (eqb k' k) eqn:E; cbn [map fst].
    + apply Heqb in E as ->. clear IH. case_decide as Hin; [done|].
      destruct Hin. by apply elem_of_cons; left.
    + assert (k' <> k) as Hne by (intros Heq; apply Heqb in Heq; congruence).
      rewrite IH. clear IH.
      destruct (decide (k ∈ map fst d)) as [Hin|Hnin];
        destruct (decide (k ∈ k' :: map fst d)) as [Hin'|Hnin']; try done.
      * destruct Hnin'. by apply elem_of_cons; right.
      * apply elem_of_cons in Hin' as [?|?]; congruence.
Qed.

Lemma key_is_str k' k : key_is k' (PyStr k) = true <-> k' = PyStr k.
Proof.
  destruct k' as [| | |s|]; simpl; try (split; done).
  rewrite String.eqb_eq. split; congruence.
Qed.

#[global] Instance scalar_eq_dec : EqDecision scalar.
Proof. solve_decision. Defined.

#[global] Instance Node_eq_dec : EqDecision Node.
Proof. solve_decision. Defined.

Lemma dict_set_set (k : string) (v1 v2 : val) (d : dict scalar val) :
  dict_set key_is (PyStr k) v2 (dict_set key_is (PyStr k) v1 d)
  = dict_set key_is (PyStr k) v2 d.
Proof.
  induction d as [|[k' v'] d IH]; simpl.
  - by rewrite String.eqb_refl.
  - destruct (key_is k' (PyStr k)) eqn:E; simpl; rewrite E; [done|by rewrite IH].
Qed.

(** ** More on the extractor *)

Section Records.
Context `{!Externals}.

Lemma volumes_outcome_keys g ids :
  forall n acc m,
    volumes_outcome g ids n acc = Ok m ->
    NoDup (dict_keys acc) ->
    NoDup (dict_keys m)
    /\ forall k, k ∈ dict_keys m
                 <-> k ∈ dict_keys acc \/ k ∈ drawn n (List.length ids).
Proof.
  induction ids as [|id ids IH]; simpl; intros n acc m Hm Hnd.
  - injection Hm as <-. split; [done|]. intros k. split; [by left|].
    intros [?|Hin]; [done|]. by apply elem_of_nil in Hin.
  - destruct (record_of g id) as [r|e]; [|done].
    pose proof (dict_keys_set String.eqb (uuid4_hex n) r acc
                  (fun k' => String.eqb_eq k' (uuid4_hex n))) as Hkeys.
    destruct (IH _ _ _ Hm) as [Hnd' Hin'].
    { rewrite Hkeys. case_decide; [done|].
      apply NoDup_app. split; [done|]. split; [|apply NoDup_singleton].
      intros k Hk ->%list_elem_of_singleton. done. }
    split; [done|]. intros k. rewrite Hin', Hkeys, drawn_S, elem_of_cons.
    case_decide as Hd.
    + split; [tauto|]. intros [?|[->|?]]; tauto.
    + rewrite elem_of_app, list_elem_of_singleton. tauto.
Qed.

Lemma parse_volume_info_keys meta_ttl work_id g w m w' :
  turtle_parse meta_ttl = Some g ->
  parse_volume_info meta_ttl work_id w = (Ok m, w') ->
  NoDup (dict_keys m)
  /\ (forall k, k ∈ dict_keys m
                <-> k ∈ drawn (uuid_calls w)
                      (List.length (objects g (BDR work_id) (BDO "instanceHasVolume"))))
  /\ uuid_calls w' = uuid_calls w
                     + List.length (objects g (BDR work_id) (BDO "instanceHasVolume")).
Proof.
  intros Hg Hrun. rewrite (parse_volume_info_parsed _ _ g _ Hg) in Hrun.
  injection Hrun as Hm Hw. rewrite <- get_vol_img_grp_id_list_length.
  destruct (volumes_outcome_keys g _ _ _ _ Hm) as [Hnd Hin]; [constructor|].
  destruct (volumes_outcome_inv g _ _ _ _ Hm) as [rs Hrs].
  rewrite (processed_all g _ rs Hrs) in Hw.
  split; [done|]. split; [|by subst w'].
  intros k. rewrite Hin. split; [|by right].
  intros [Hnil|?]; [|done]. by apply elem_of_nil in Hnil.
Qed.

(** X5: a graph without any "has volume" triple for the work (a work with
    no volume, or a work identifier the graph does not know) gives the
    empty mapping without a trace: no warning, no identifier drawn, nothing
    changed. *)
Theorem no_volume_gives_silent_empty_mapping meta_ttl work_id g w :
  turtle_parse meta_ttl = Some g ->
  (forall volume,
      (URIRef (BDR work_id), URIRef (BDO "instanceHasVolume"), volume) ∉ g) ->
  parse_volume_info meta_ttl work_id w = (Ok [], w).
Proof.
  intros Hg Hnone. rewrite (parse_volume_info_parsed _ _ g _ Hg).
  assert (get_vol_img_grp_id_list g work_id = []) as ->.
  { destruct (get_vol_img_grp_id_list g work_id) as [|id ids] eqn:Hids; [done|].
    assert (id ∈ get_vol_img_grp_id_list g work_id) as Hin
      by (rewrite Hids; by apply elem_of_cons; left).
    apply ids_are_trailing_segments_aux in Hin as (volume & Hin & _).
    by destruct (Hnone volume). }
  unfold title_warnings. simpl. rewrite app_nil_r, Nat.add_0_r. by destruct w.
Qed.

(** X8: whatever the identifiers drawn, the keys of a returned mapping are
    pairwise distinct and are exactly the identifiers drawn in the run, one
    per "has volume" relation; the mapping never has more records than
    there are relations. *)
Theorem keys_are_the_identifiers_drawn meta_ttl work_id g w m w' :
  turtle_parse meta_ttl = Some g ->
  parse_volume_info meta_ttl work_id w = (Ok m, w') ->
  NoDup (dict_keys m)
  /\ (forall k, k ∈ dict_keys m
                <-> k ∈ drawn (uuid_calls w)
                      (List.length (objects g (BDR work_id) (BDO "instanceHasVolume"))))
  /\ uuid_calls w' = uuid_calls w
                     + List.length (objects g (BDR work_id) (BDO "instanceHasVolume"))
  /\ List.length m <= List.length (objects g (BDR work_id) (BDO "instanceHasVolume")).
Proof.
  intros Hg Hrun.
  destruct (parse_volume_info_keys _ _ _ _ _ _ Hg Hrun) as (Hnd & Hin & Hw).
  split; [done|]. split; [done|]. split; [done|].
  replace (List.length m) with (List.length (dict_keys m))
    by (unfold dict_keys; apply length_map).
  set (N := List.length (objects g (BDR work_id) (BDO "instanceHasVolume"))) in *.
  trans (List.length (drawn (uuid_calls w) N)); [|by rewrite drawn_length].
  apply submseteq_length, NoDup_submseteq; [done|]. intros k. by rewrite Hin.
Qed.

(** X9: a returned mapping has one record per "has volume" relation exactly
    when the identifiers drawn in the run are pairwise distinct; a repeated
    identifier makes a later record replace an earlier one. *)
Theorem full_count_iff_identifiers_distinct meta_ttl work_id g w m w' :
  turtle_parse meta_ttl = Some g ->
  parse_volume_info meta_ttl work_id w = (Ok m, w') ->
  List.length m = List.length (objects g (BDR work_id) (BDO "instanceHasVolume"))
  <-> NoDup (drawn (uuid_calls w)
               (List.length (objects g (BDR work_id) (BDO "instanceHasVolume")))).
Proof.
  intros Hg Hrun.
  destruct (parse_volume_info_keys _ _ _ _ _ _ Hg Hrun) as (Hnd & Hin & _).
  set (N := List.length (objects g (BDR work_id) (BDO "instanceHasVolume"))) in *.
  assert (List.length m = List.length (dict_keys m)) as ->
    by (unfold dict_keys; by rewrite length_map).
  assert (dict_keys m ⊆+ drawn (uuid_calls w) N) as Hsub.
  { apply NoDup_submseteq; [done|]. intros k. by rewrite Hin. }
  split.
  - intros Hlen. eapply NoDup_Permutation_proper; [|exact Hnd].
    symmetry. apply submseteq_length_Permutation; [done|].
    rewrite drawn_length. lia.
  - intros Hdrawn.
    trans (List.length (drawn (uuid_calls w) N)); [|by rewrite drawn_length].
    apply Permutation_length. by apply NoDup_Permutation.
Qed.

(** X6: in a returned mapping, the title of a record is the Python value
    of the first title literal of its volume; when the volume has no title,
    or a false one (an empty literal), the title is the empty string and a
    warning that names the volume and the work is in the log. *)
Theorem titles_come_from_the_graph meta_ttl work_id g w m w' uid r :
  turtle_parse meta_ttl = Some g ->
  parse_volume_info meta_ttl work_id w = (Ok m, w') ->
  (uid, r) ∈ m ->
  match graph_value g (BDR (image_group_id r)) RDFS_comment with
  | Some t =>
      if node_truthy t then exists lexical, t = Literal lexical (title r)
      else
        title r = PyStr ""
        /\ (WARNING, (image_group_id r ++ " in work id: " ++ work_id
                      ++ " doesn't have proper title")%string) ∈ log w'
  | None =>
      title r = PyStr ""
      /\ (WARNING, (image_group_id r ++ " in work id: " ++ work_id
                    ++ " doesn't have proper title")%string) ∈ log w'
  end.
Proof.
  intros Hg Hrun Hin. rewrite (parse_volume_info_parsed _ _ g _ Hg) in Hrun.
  injection Hrun as Hm Hw.
  destruct (volumes_outcome_elem g _ _ _ _ _ _ Hm Hin) as [Hnil|(id & Hid & Hr)];
    [by apply elem_of_nil in Hnil|].
  destruct (volumes_outcome_inv g _ _ _ _ Hm) as [rs Hrs].
  rewrite (processed_all g _ rs Hrs) in Hw.
  rewrite (record_of_id g id r Hr).
  assert (title_missing g id = true ->
          (WARNING, (id ++ " in work id: " ++ work_id
                     ++ " doesn't have proper title")%string) ∈ log w') as Hlog.
  { intros Hmiss. subst w'. simpl. apply elem_of_app. right.
    unfold title_warnings. apply list_elem_of_fmap. exists id. split; [done|].
    apply list_elem_of_In, filter_In. split; [by apply list_elem_of_In|done]. }
  unfold title_missing in Hlog. unfold record_of, title_of in Hr.
  destruct (graph_value g (BDR id) RDFS_comment) as [t|].
  - destruct (node_truthy t).
    + destruct t as [| |lexical v]; try done.
      destruct (number_of g id); [|done]. injection Hr as <-. by exists lexical.
    + destruct (number_of g id); [|done]. injection Hr as <-. split; [done|auto].
  - destruct (number_of g id); [|done]. injection Hr as <-. split; [done|auto].
Qed.

(** X7: in a returned mapping, every record belongs to one of the listed
    identifiers, its volume number is the integer [int] reads from the first
    volume-number object of that volume, and its page total is the integer
    [int] reads from the first total-pages object whenever [int] accepts
    it. *)
Theorem numbers_come_from_the_graph meta_ttl work_id g w m w' uid r :
  turtle_parse meta_ttl = Some g ->
  parse_volume_info meta_ttl work_id w = (Ok m, w') ->
  (uid, r) ∈ m ->
  image_group_id r ∈ get_vol_img_grp_id_list g work_id
  /\ (exists n, graph_value g (BDR (image_group_id r)) (BDO "volumeNumber") = Some n
                /\ int_of_str (node_str n) = Some (volume_number r))
  /\ (forall n z,
        graph_value g (BDR (image_group_id r)) (BDO "volumePagesTotal") = Some n ->
        int_of_str (node_str n) = Some z ->
        total_pages r = z).
Proof.
  intros Hg Hrun Hin. rewrite (parse_volume_info_parsed _ _ g _ Hg) in Hrun.
  injection Hrun as Hm _.
  destruct (volumes_outcome_elem g _ _ _ _ _ _ Hm Hin) as [Hnil|(id & Hid & Hr)];
    [by apply elem_of_nil in Hnil|].
  rewrite (record_of_id g id r Hr). split; [done|].
  pose proof (record_of_pages g id r Hr) as Hpages.
  unfold record_of, number_of, pages_of, int_of in *.
  destruct (title_of g id); [|done].
  destruct (graph_value g (BDR id) (BDO "volumeNumber")) as [n|]; [|done].
  destruct (int_of_str (node_str n)) as [z|] eqn:Hz; [|done].
  injection Hr as <-. split; [exists n; split; [done|exact Hz]|].
  intros n' z' Hn' Hz'. simpl. by rewrite Hn', Hz'.
Qed.

End Records.

(** ** Runs that raise, and the order of statements *)

Section Failures.
Context `{!Externals}.

Lemma volumes_outcome_first_failure g before id after e rs :
  Forall2 (fun id r => record_of g id = Ok r) before rs ->
  record_of g id = Raise e ->
  (forall n acc, volumes_outcome g (before ++ id :: after) n acc = Raise e)
  /\ processed g (before ++ id :: after) = before ++ [id].
Proof.
  intros Hrs He. induction Hrs as [|id' r before rs Hr _ [IHo IHp]]; simpl.
  - rewrite He. done.
  - rewrite Hr. split; [intros n acc; apply IHo|by rewrite IHp].
Qed.

(** X10: a volume whose first title object is true but not a literal (a
    URI or a blank node) makes the loop body raise [AttributeError], after
    drawing its identifier and without logging; [parse_volume_info] then
    returns no mapping. *)
Theorem title_that_is_no_literal_raises meta_ttl work_id g id t w :
  turtle_parse meta_ttl = Some g ->
  id ∈ get_vol_img_grp_id_list g work_id ->
  graph_value g (BDR id) RDFS_comment = Some t ->
  node_truthy t = true ->
  (forall lexical v, t <> Literal lexical v) ->
  (forall acc w0,
      volume_step g work_id acc id w0
      = (Raise AttributeError,
         mkWorld (heap w0) (log w0) (stdout w0) (S (uuid_calls w0))))
  /\ exists e w', parse_volume_info meta_ttl work_id w = (Raise e, w').
Proof.
  intros Hg Hin Ht Htrue Hlit.
  assert (record_of g id = Raise AttributeError) as Hr.
  { unfold record_of, title_of. rewrite Ht, Htrue.
    destruct t as [| |lexical v]; [done|done|by destruct (Hlit lexical v)]. }
  split.
  - intros acc w0. rewrite volume_step_spec, Hr.
    unfold title_warnings, title_missing. simpl. rewrite Ht, Htrue. simpl.
    by rewrite app_nil_r.
  - rewrite (parse_volume_info_parsed _ _ g _ Hg).
    destruct (volumes_outcome_raise g (get_vol_img_grp_id_list g work_id)
                (uuid_calls w) []) as [e He].
    { apply Exists_exists. exists id. split; [done|eauto]. }
    rewrite He. eauto.
Qed.

(** X11: the volumes are processed in sorted order and the first one that
    fails decides the outcome.  When the volumes listed before [id] have
    a volume number and a readable title, and [id] has a readable title but
    no usable volume number, [parse_volume_info] raises [TypeError] if the
    number is absent and [ValueError] if [int] rejects it, having drawn one
    identifier for each volume up to [id] and logged the title warnings of
    those volumes only. *)
Theorem first_bad_volume_number_decides meta_ttl work_id g before id after w :
  turtle_parse meta_ttl = Some g ->
  get_vol_img_grp_id_list g work_id = before ++ id :: after ->
  (forall id', id' ∈ before -> has_volume_number g id' /\ title_readable g id') ->
  title_readable g id ->
  lacks_volume_number g id ->
  parse_volume_info meta_ttl work_id w
  = (Raise (match graph_value g (BDR id) (BDO "volumeNumber") with
            | None => TypeError
            | Some _ => ValueError
            end),
     mkWorld (heap w) (log w ++ title_warnings g work_id (before ++ [id]))
             (stdout w) (uuid_calls w + List.length (before ++ [id]))).
Proof.
  intros Hg Hids Hbefore Htitle Hlacks.
  destruct (described_records g before Hbefore) as [rs Hrs].
  assert (record_of g id
          = Raise (match graph_value g (BDR id) (BDO "volumeNumber") with
                   | None => TypeError
                   | Some _ => ValueError
                   end)) as He.
  { unfold record_of, title_of, number_of, int_of.
    destruct (graph_value g (BDR id) RDFS_comment) as [t|] eqn:Hc.
    - destruct (node_truthy t) eqn:Htr.
      + destruct (Htitle t Hc Htr) as (lexical & v & ->).
        destruct Hlacks as [->|(n & -> & ->)]; done.
      + destruct Hlacks as [->|(n & -> & ->)]; done.
    - destruct Hlacks as [->|(n & -> & ->)]; done. }
  destruct (volumes_outcome_first_failure g before id after _ rs Hrs He) as [Ho Hp].
  rewrite (parse_volume_info_parsed _ _ g _ Hg), Hids, Ho, Hp. done.
Qed.

Lemma perm_short_eq {A} (l1 l2 : list A) :
  l1 ≡ₚ l2 -> List.length l1 <= 1 -> l1 = l2.
Proof.
  destruct l1 as [|x [|y l1]]; simpl; intros Hperm Hlen; [| |lia].
  - by apply Permutation_nil_l in Hperm.
  - by apply Permutation_singleton_l in Hperm.
Qed.

Lemma for_each_same_lookups g g' work_id ids :
  (forall id p,
      id ∈ ids ->
      p ∈ [RDFS_comment; BDO "volumeNumber"; BDO "volumePagesTotal"] ->
      graph_value g (BDR id) p = graph_value g' (BDR id) p) ->
  forall acc w,
    for_each (volume_step g work_id) ids acc w
    = for_each (volume_step g' work_id) ids acc w.
Proof.
  induction ids as [|id ids IH]; intros Hsame acc w; [done|].
  simpl. unfold bind.
  assert (volume_step g work_id acc id w = volume_step g' work_id acc id w) as ->.
  { unfold volume_step.
    rewrite (Hsame id RDFS_comment) by repeat constructor.
    rewrite (Hsame id (BDO "volumeNumber")) by repeat constructor.
    by rewrite (Hsame id (BDO "volumePagesTotal")) by repeat constructor. }
  destruct (volume_step g' work_id acc id w) as [[acc'|e] w1]; [|done].
  apply IH. intros id' p Hin Hp. apply Hsame; [|done]. by apply elem_of_cons; right.
Qed.

(** X12: the order of the statements in the text does not matter when no
    listed volume has two titles, two volume numbers or two page totals:
    two texts that parse into graphs with the same triples are extracted to
    the same mapping, with the same log, from the same state. *)
Theorem extraction_independent_of_statement_order
    meta_ttl meta_ttl' work_id g g' w :
  turtle_parse meta_ttl = Some g ->
  turtle_parse meta_ttl' = Some g' ->
  g ≡ₚ g' ->
  (forall id p,
      id ∈ get_vol_img_grp_id_list g work_id ->
      p ∈ [RDFS_comment; BDO "volumeNumber"; BDO "volumePagesTotal"] ->
      List.length (objects g (BDR id) p) <= 1) ->
  parse_volume_info meta_ttl work_id w = parse_volume_info meta_ttl' work_id w.
Proof.
  intros Hg Hg' Hperm Hone. unfold parse_volume_info. rewrite Hg, Hg'. simpl.
  rewrite <- (get_vol_img_grp_id_list_proper g g' work_id Hperm).
  apply for_each_same_lookups. intros id p Hid Hp. unfold graph_value.
  f_equal. apply perm_short_eq; [by apply objects_perm|by apply Hone].
Qed.

End Failures.

(** ** More on the merger *)

Section Merging.
Context `{!Externals}.

Lemma parse_volume_info_stdout meta_ttl work_id w :
  stdout (snd (parse_volume_info meta_ttl work_id w)) = stdout w.
Proof.
  destruct (turtle_parse meta_ttl) as [g|] eqn:Hg.
  - by rewrite (parse_volume_info_parsed _ _ g _ Hg).
  - unfold parse_volume_info. by rewrite Hg.
Qed.

(** The assignment fails without effect, or writes one mapping. *)
Lemma assignment_cases (old_meta v : val) (w : World) :
  (exists e,
      (source_metadata <- getitem old_meta "source_metadata" ;;
       setitem source_metadata "volume" v) w = (Raise e, w))
  \/ exists l2 d2,
       heap w !! l2 = Some (ODict d2)
       /\ (source_metadata <- getitem old_meta "source_metadata" ;;
           setitem source_metadata "volume" v) w
          = (Ok tt, mkWorld (<[l2 := ODict (dict_set key_is (PyStr "volume") v d2)]>
                               (heap w))
                            (log w) (stdout w) (uuid_calls w)).
Proof.
  unfold bind, getitem, setitem.
  destruct old_meta as [s|l|vi]; [eauto| |eauto].
  destruct (heap w !! l) as [[d|items]|]; [|eauto..].
  destruct (dict_get key_is (PyStr "source_metadata") d) as [[s|l2|vi]|];
    [eauto| |eauto..].
  destruct (heap w !! l2) as [[d2|items]|] eqn:Hl2; [|eauto..].
  right. by exists l2, d2.
Qed.

Lemma get_new_meta_merged old_meta meta_ttl work_id w vi w1 l d l2 d2 :
  parse_volume_info meta_ttl work_id w = (Ok vi, w1) ->
  source_metadata_at (heap w) old_meta l d l2 d2 ->
  get_new_meta old_meta meta_ttl work_id w
  = (Ok old_meta,
     mkWorld (<[l2 := ODict (dict_set key_is (PyStr "volume") (VVolInfo vi) d2)]>
                (heap w))
             (log w1) (stdout w1) (uuid_calls w1)).
Proof.
  intros Hrun Hshape.
  pose proof (parse_volume_info_heap meta_ttl work_id w) as Hheap.
  rewrite Hrun in Hheap. simpl in Hheap.
  unfold get_new_meta. unfold bind at 1. rewrite Hrun.
  unfold bind at 1. unfold try_except.
  rewrite <- Hheap in Hshape.
  rewrite (assignment_succeeds old_meta (VVolInfo vi) w1 l d l2 d2 Hshape).
  unfold ret. by rewrite Hheap.
Qed.

(** The document keeps its shape when a mapping is merged into it. *)
Lemma shape_after_merge h old_meta l d l2 d2 v :
  source_metadata_at h old_meta l d l2 d2 ->
  exists d',
    source_metadata_at (<[l2 := ODict (dict_set key_is (PyStr "volume") v d2)]> h)
      old_meta l d' l2 (dict_set key_is (PyStr "volume") v d2).
Proof.
  intros (-> & Hl & Hsm & Hl2). destruct (decide (l = l2)) as [->|Hne].
  - exists (dict_set key_is (PyStr "volume") v d2).
    assert (d = d2) as -> by congruence.
    repeat split; [apply lookup_insert_eq| |apply lookup_insert_eq].
    by rewrite dict_get_set_ne.
  - exists d. repeat split; [by rewrite lookup_insert_ne|done|apply lookup_insert_eq].
Qed.

(** X13: [parse_volume_info] is called outside the [try]: whatever the
    document, when the extraction raises, [get_new_meta] raises the same
    exception, in the state the extraction left; no object of the document
    is modified and nothing is printed. *)
Theorem extractor_exception_passes_through old_meta meta_ttl work_id w e w1 :
  parse_volume_info meta_ttl work_id w = (Raise e, w1) ->
  get_new_meta old_meta meta_ttl work_id w = (Raise e, w1)
  /\ heap w1 = heap w
  /\ stdout w1 = stdout w.
Proof.
  intros Hrun.
  pose proof (parse_volume_info_heap meta_ttl work_id w) as Hheap.
  pose proof (parse_volume_info_stdout meta_ttl work_id w) as Hout.
  rewrite Hrun in Hheap, Hout. split; [|done].
  unfold get_new_meta. unfold bind at 1. by rewrite Hrun.
Qed.

(** X14: text that is not valid Turtle erases the volume information: for
    a document whose [source_metadata] is a mapping, [get_new_meta] sets its
    [volume] entry to the empty mapping, whatever was there, and the only
    trace is the bad-syntax warning of the extractor. *)
Theorem bad_syntax_erases_volume old_meta meta_ttl work_id w l d l2 d2 :
  turtle_parse meta_ttl = None ->
  source_metadata_at (heap w) old_meta l d l2 d2 ->
  get_new_meta old_meta meta_ttl work_id w
  = (Ok old_meta,
     mkWorld (<[l2 := ODict (dict_set key_is (PyStr "volume") (VVolInfo []) d2)]>
                (heap w))
             (log w ++ [(WARNING, (work_id ++ ".ttl Contains bad syntax")%string)])
             (stdout w) (uuid_calls w)).
Proof.
  intros Hbad Hshape.
  apply (get_new_meta_merged old_meta meta_ttl work_id w []
           (mkWorld (heap w)
              (log w ++ [(WARNING, (work_id ++ ".ttl Contains bad syntax")%string)])
              (stdout w) (uuid_calls w)) l d l2 d2); [|done].
  unfold parse_volume_info. by rewrite Hbad.
Qed.

(** X15: merging does not accumulate.  After a first merge, a second merge
    into the same document leaves the store exactly as if only the second
    volume mapping had been merged into the original document: the first
    mapping is gone and every other entry is as it was. *)
Theorem second_merge_replaces_first
    old_meta meta_ttl1 work_id1 meta_ttl2 work_id2 w vi1 w1 vi2 w2 l d l2 d2 :
  source_metadata_at (heap w) old_meta l d l2 d2 ->
  parse_volume_info meta_ttl1 work_id1 w = (Ok vi1, w1) ->
  parse_volume_info meta_ttl2 work_id2
    (snd (get_new_meta old_meta meta_ttl1 work_id1 w)) = (Ok vi2, w2) ->
  get_new_meta old_meta meta_ttl2 work_id2
    (snd (get_new_meta old_meta meta_ttl1 work_id1 w))
  = (Ok old_meta,
     mkWorld (<[l2 := ODict (dict_set key_is (PyStr "volume") (VVolInfo vi2) d2)]>
                (heap w))
             (log w2) (stdout w2) (uuid_calls w2)).
Proof.
  intros Hshape Hrun1.
  rewrite (get_new_meta_merged _ _ _ _ _ _ _ _ _ _ Hrun1 Hshape). simpl.
  intros Hrun2.
  destruct (shape_after_merge _ _ _ _ _ _ (VVolInfo vi1) Hshape) as [d' Hshape'].
  rewrite (get_new_meta_merged _ _ _ _ _ _ _ _ _ _ Hrun2 Hshape'). simpl.
  by rewrite insert_insert_eq, dict_set_set.
Qed.

(** X16: the [volume] key keeps its place.  After a successful merge the
    keys of the [source_metadata] mapping are the same in the same order
    when [volume] was among them, and otherwise the same followed by
    [volume]. *)
Theorem volume_key_keeps_its_place old_meta meta_ttl work_id w vi w1 l d l2 d2 :
  parse_volume_info meta_ttl work_id w = (Ok vi, w1) ->
  source_metadata_at (heap w) old_meta l d l2 d2 ->
  exists d2',
    heap (snd (get_new_meta old_meta meta_ttl work_id w)) !! l2 = Some (ODict d2')
    /\ dict_keys d2'
       = if decide (PyStr "volume" ∈ dict_keys d2) then dict_keys d2
         else dict_keys d2 ++ [PyStr "volume"].
Proof.
  intros Hrun Hshape.
  rewrite (get_new_meta_merged _ _ _ _ _ _ _ _ _ _ Hrun Hshape). simpl.
  eexists. split; [apply lookup_insert_eq|].
  apply dict_keys_set. intros k'. apply key_is_str.
Qed.

(** The three ways [get_new_meta] can end. *)
Lemma get_new_meta_cases old_meta meta_ttl work_id w :
  match parse_volume_info meta_ttl work_id w with
  | (Raise e, w1) => get_new_meta old_meta meta_ttl work_id w = (Raise e, w1)
  | (Ok vi, w1) =>
      get_new_meta old_meta meta_ttl work_id w
      = (Ok old_meta,
         mkWorld (heap w1)
                 (log w1 ++ [(WARNING, (work_id ++ " doesn't have proper meta.yml")%string)])
                 (stdout w1) (uuid_calls w1))
      \/ exists l2 d2,
           heap w1 !! l2 = Some (ODict d2)
           /\ get_new_meta old_meta meta_ttl work_id w
              = (Ok old_meta,
                 mkWorld (<[l2 := ODict (dict_set key_is (PyStr "volume")
                                           (VVolInfo vi) d2)]> (heap w1))
                         (log w1) (stdout w1) (uuid_calls w1))
  end.
Proof.
  destruct (parse_volume_info meta_ttl work_id w) as [[vi|e] w1] eqn:Hrun.
  - destruct (assignment_cases old_meta (VVolInfo vi) w1)
      as [[e He]|(l2 & d2 & Hl2 & Hset)].
    + left. unfold get_new_meta. unfold bind at 1. rewrite Hrun.
      unfold bind at 1. unfold try_except. by rewrite He.
    + right. exists l2, d2. split; [done|].
      unfold get_new_meta. unfold bind at 1. rewrite Hrun.
      unfold bind at 1. unfold try_except. by rewrite Hset.
  - unfold get_new_meta. unfold bind at 1. by rewrite Hrun.
Qed.

(** X17: what [get_new_meta] never does, whatever its arguments and its
    outcome: it prints nothing, it adds no object to the store and removes
    none, a value it returns is [old_meta] itself, and an object that is no
    longer what it was is a mapping that differs from its former self in the
    entry under [volume] only. *)
Theorem merger_footprint old_meta meta_ttl work_id w :
  stdout (snd (get_new_meta old_meta meta_ttl work_id w)) = stdout w
  /\ dom (heap (snd (get_new_meta old_meta meta_ttl work_id w))) = dom (heap w)
  /\ (forall v, fst (get_new_meta old_meta meta_ttl work_id w) = Ok v -> v = old_meta)
  /\ (forall l o',
        heap (snd (get_new_meta old_meta meta_ttl work_id w)) !! l = Some o' ->
        heap w !! l = Some o'
        \/ exists d d0',
             heap w !! l = Some (ODict d) /\ o' = ODict d0'
             /\ entries_except "volume" d0' = entries_except "volume" d).
Proof.
  pose proof (parse_volume_info_heap meta_ttl work_id w) as Hheap.
  pose proof (parse_volume_info_stdout meta_ttl work_id w) as Hout.
  pose proof (get_new_meta_cases old_meta meta_ttl work_id w) as Hcases.
  destruct (parse_volume_info meta_ttl work_id w) as [[vi|e] w1]; simpl in *.
  - destruct Hcases as [->|(l2 & d2 & Hl2 & ->)]; simpl.
    + rewrite Hheap, Hout. repeat split; [by intros v [= <-]|auto].
    + rewrite Hheap in *. repeat split; [done| |by intros v [= <-]|].
      * apply dom_insert_lookup_L. by rewrite Hl2.
      * intros l o' Ho'. destruct (decide (l = l2)) as [->|Hne].
        -- rewrite lookup_insert_eq in Ho'. injection Ho' as <-. right.
           exists d2, (dict_set key_is (PyStr "volume") (VVolInfo vi) d2).
           repeat split; [done|apply dict_set_frame].
        -- rewrite lookup_insert_ne in Ho' by done. by left.
  - rewrite Hcases. simpl. rewrite Hheap, Hout. repeat split; [done|auto].
Qed.

End Merging.

(** ** The entry point *)

Section EntryPoint.
Context `{!Externals} `{!Platform}.

Lemma get_ttl_run work_id w :
  get_ttl work_id w
  = match requests_get ("http://purl.bdrc.io/graph/" ++ work_id ++ ".ttl")%string with
    | Ok ttl =>
        (Ok (text ttl),
         mkWorld (heap w) (log w) (stdout w ++ ["Downloading ttl file"]) (uuid_calls w))
    | Raise _ =>
        (Ok EmptyString,
         mkWorld (heap w) (log w)
                 (stdout w ++ ["Downloading ttl file"; " TTL not Found!!!"])
                 (uuid_calls w))
    end.
Proof.
  unfold get_ttl. run_monad. simpl.
  destruct (requests_get _) as [ttl|e]; simpl; [done|]. by rewrite <- app_assoc.
Qed.

(** The entry point, step by step. *)
Lemma main_steps s :
  main s =
    let '(r1, w1) := get_ttl "W22083" (world s) in
    match r1 with
    | Raise e => (Raise e, mkMachine w1 (disk s))
    | Ok meta_ttl =>
        let '(r2, w2) := get_old_meta "P000003" w1 in
        match r2 with
        | Raise e => (Raise e, mkMachine w2 (disk s))
        | Ok old_meta =>
            let '(r3, w3) := get_new_meta old_meta meta_ttl "W22083" w2 in
            match r3 with
            | Raise e => (Raise e, mkMachine w3 (disk s))
            | Ok new_meta =>
                match yaml_safe_dump (heap w3) new_meta with
                | Raise e => (Raise e, mkMachine w3 (disk s))
                | Ok new_meta_yaml =>
                    let '(r4, d1) := path_mkdir "./new_meta/P000003" (disk s) in
                    match r4 with
                    | Raise e => (Raise e, mkMachine w3 d1)
                    | Ok _ =>
                        let '(r5, d2) :=
                          path_write_text "./new_meta/P000003/meta.yml"
                            new_meta_yaml d1 in
                        match r5 with
                        | Raise e => (Raise e, mkMachine w3 d2)
                        | Ok _ =>
                            (Ok tt,
                             mkMachine
                               (mkWorld (heap w3)
                                  (log w3 ++ [(INFO, "P000003.. Completed")])
                                  (stdout w3) (uuid_calls w3))
                               d2)
                        end
                    end
                end
            end
        end
    end.
Proof.
  unfold main. cbv zeta.
  change ("./new_meta/" ++ "P000003" ++ "/meta.yml")%string
    with "./new_meta/P000003/meta.yml".
  change ("./new_meta/" ++ "P000003")%string with "./new_meta/P000003".
  change ("P000003" ++ ".. Completed")%string with "P000003.. Completed".
  unfold bindP, in_world, on_disk, logging_info.
  destruct (get_ttl "W22083" (world s)) as [[meta_ttl|e] w1]; simpl; [|done].
  destruct (get_old_meta "P000003" w1) as [[old_meta|e] w2]; simpl; [|done].
  destruct (get_new_meta old_meta meta_ttl "W22083" w2) as [[new_meta|e] w3];
    simpl; [|done].
  destruct (yaml_safe_dump (heap w3) new_meta) as [new_meta_yaml|e]; simpl; [|done].
  destruct (path_mkdir "./new_meta/P000003" (disk s)) as [[[]|e] d1]; simpl; [|done].
  by destruct (path_write_text "./new_meta/P000003/meta.yml" new_meta_yaml d1)
    as [[[]|e] d2].
Qed.


(** X19: a failed catalog fetch erases the volume information in the
    output.  When the request for the graph raises while the metadata
    document is fetched and loaded, with a mapping under [source_metadata],
    the entry point completes as a success: the text written to
    [./new_meta/P000003/meta.yml] is the dump of the document with an empty
    [volume] mapping, the log has the completion line and no warning, and
    the only sign is the notice on standard output.  (The empty text is
    taken to parse as the empty graph.) *)
Theorem failed_fetch_erases_volume_in_output s e resp doc h l d l2 d2
    new_meta_yaml d1 d3 :
  turtle_parse EmptyString = Some [] ->
  requests_get "http://purl.bdrc.io/graph/W22083.ttl" = Raise e ->
  requests_get
    "https://raw.githubusercontent.com/OpenPecha/P000003/master/P000003.opf/meta.yml"
  = Ok resp ->
  yaml_safe_load (text resp) (heap (world s)) = Ok (doc, h) ->
  source_metadata_at h doc l d l2 d2 ->
  yaml_safe_dump
    (<[l2 := ODict (dict_set key_is (PyStr "volume") (VVolInfo []) d2)]> h) doc
  = Ok new_meta_yaml ->
  path_mkdir "./new_meta/P000003" (disk s) = (Ok tt, d1) ->
  path_write_text "./new_meta/P000003/meta.yml" new_meta_yaml d1 = (Ok tt, d3) ->
  main s
  = (Ok tt,
     mkMachine
       (mkWorld (<[l2 := ODict (dict_set key_is (PyStr "volume") (VVolInfo []) d2)]> h)
                (log (world s) ++ [(INFO, "P000003.. Completed")])
                (stdout (world s) ++ ["Downloading ttl file"; " TTL not Found!!!"])
                (uuid_calls (world s)))
       d3).
Proof.
  intros Hempty Hgraph Hmeta Hload Hshape Hdump Hmk Hwr.
  rewrite main_steps, get_ttl_run.
  change ("http://purl.bdrc.io/graph/" ++ "W22083" ++ ".ttl")%string
    with "http://purl.bdrc.io/graph/W22083.ttl".
  rewrite Hgraph.
  assert (get_old_meta "P000003"
            (mkWorld (heap (world s)) (log (world s))
               (stdout (world s) ++ ["Downloading ttl file"; " TTL not Found!!!"])
               (uuid_calls (world s)))
          = (Ok doc,
             mkWorld h (log (world s))
               (stdout (world s) ++ ["Downloading ttl file"; " TTL not Found!!!"])
               (uuid_calls (world s)))) as ->.
  { unfold get_old_meta, bind, lift.
    change ("https://raw.githubusercontent.com/OpenPecha/" ++ "P000003" ++ "/master/"
            ++ "P000003" ++ ".opf/meta.yml")%string
      with "https://raw.githubusercontent.com/OpenPecha/P000003/master/P000003.opf/meta.yml".
    rewrite Hmeta. simpl. by rewrite Hload. }
  rewrite (get_new_meta_merged doc EmptyString "W22083" _ []
             (mkWorld h (log (world s))
                (stdout (world s) ++ ["Downloading ttl file"; " TTL not Found!!!"])
                (uuid_calls (world s))) l d l2 d2); [|
    rewrite (parse_volume_info_parsed _ _ [] _ Hempty);
    unfold get_vol_img_grp_id_list, title_warnings; simpl;
    by rewrite app_nil_r, Nat.add_0_r | done].
  simpl. by rewrite Hdump, Hmk, Hwr.
Qed.

(** X20: one volume without a usable volume number stops the whole run
    before anything is written.  When the graph text fetched parses into a
    graph in which a listed volume has no volume number, or one that [int]
    rejects, the entry point raises and leaves the disk as it was, whatever
    the metadata document. *)
Theorem bad_volume_number_stops_the_run s resp g id :
  requests_get "http://purl.bdrc.io/graph/W22083.ttl" = Ok resp ->
  turtle_parse (text resp) = Some g ->
  id ∈ get_vol_img_grp_id_list g "W22083" ->
  lacks_volume_number g id ->
  exists e, fst (main s) = Raise e /\ disk (snd (main s)) = disk s.
Proof.
  intros Hgraph Hg Hin Hlacks.
  rewrite main_steps, get_ttl_run.
  change ("http://purl.bdrc.io/graph/" ++ "W22083" ++ ".ttl")%string
    with "http://purl.bdrc.io/graph/W22083.ttl".
  rewrite Hgraph.
  destruct (get_old_meta "P000003" _) as [[old_meta|e] w2]; [|by exists e].
  pose proof (get_new_meta_cases old_meta (text resp) "W22083" w2) as Hcases.
  rewrite (parse_volume_info_parsed _ _ g _ Hg) in Hcases.
  destruct (volumes_outcome_raise g (get_vol_img_grp_id_list g "W22083")
              (uuid_calls w2) []) as [e He].
  { apply Exists_exists. exists id. split; [done|].
    by apply lacks_volume_number_raises. }
  rewrite He in Hcases. rewrite Hcases. by exists e.
Qed.

End EntryPoint.

(** * The further properties on concrete inputs *)

Section Scenarios.
Import Sample Scenario Faults.

Lemma reordered_same_triples : two_volumes ≡ₚ reordered.
Proof. apply (bool_decide_unpack _). by vm_compute. Qed.

Lemma two_volumes_single_valued id p :
  id ∈ @get_vol_img_grp_id_list two_volumes work_id ->
  p ∈ [RDFS_comment; BDO "volumeNumber"; BDO "volumePagesTotal"] ->
  List.length (objects two_volumes (BDR id) p) <= 1.
Proof.
  rewrite two_volumes_ids. intros Hid Hp.
  repeat (apply elem_of_cons in Hid as [->|Hid]);
    [| |by apply elem_of_nil in Hid];
    repeat (apply elem_of_cons in Hp as [->|Hp]);
    try (by apply elem_of_nil in Hp); vm_compute; lia.
Qed.

Lemma unknown_work_has_no_volume volume :
  (URIRef (BDR "W1"), URIRef (BDO "instanceHasVolume"), volume) ∉ two_volumes.
Proof.
  intros Hin. unfold two_volumes in Hin.
  repeat (apply elem_of_cons in Hin as [Heq|Hin]; [discriminate Heq|]).
  by apply elem_of_nil in Hin.
Qed.

(** X1 on the node of the first volume. *)
Lemma get_img_grp_id_after_last_slash_on_I1001 :
  contains "/" "I1001" = false
  /\ get_img_grp_id ("http://purl.bdrc.io/resource" ++ "/" ++ "I1001") = "I1001"
  /\ get_img_grp_id "I1001" = "I1001"
  /\ get_img_grp_id (BDR "I1001") = "I1001".
Proof.
  split; [reflexivity|].
  apply (get_img_grp_id_after_last_slash "http://purl.bdrc.io/resource" "I1001").
  reflexivity.
Defined.

(** X3 on the two orders of the two volumes. *)
Lemma ids_independent_of_triple_order_on_reordered :
  two_volumes ≡ₚ reordered
  /\ get_vol_img_grp_id_list two_volumes work_id
     = get_vol_img_grp_id_list reordered work_id.
Proof.
  split; [exact reordered_same_triples|].
  apply (ids_independent_of_triple_order two_volumes reordered work_id).
  exact reordered_same_triples.
Defined.

(** X5 on a work identifier the graph does not know. *)
Lemma no_volume_gives_silent_empty_mapping_on_unknown_work :
  @turtle_parse online two_volumes_ttl = Some two_volumes
  /\ (forall volume,
        (URIRef (BDR "W1"), URIRef (BDO "instanceHasVolume"), volume) ∉ two_volumes)
  /\ @parse_volume_info online two_volumes_ttl "W1" (start ∅) = (Ok [], start ∅).
Proof.
  split; [reflexivity|]. split; [exact unknown_work_has_no_volume|].
  apply (@no_volume_gives_silent_empty_mapping online two_volumes_ttl "W1"
           two_volumes (start ∅)); [reflexivity|exact unknown_work_has_no_volume].
Defined.

(** X6 on the volume without title. *)
Lemma titles_come_from_the_graph_on_I1002 :
  @turtle_parse online two_volumes_ttl = Some two_volumes
  /\ @parse_volume_info online two_volumes_ttl work_id (start ∅)
     = (Ok first_run, mkWorld ∅ [no_title_I1002] [] 2)
  /\ ("000000000000000000000000a5a5a5a6", mkVolRecord "I1002" (PyStr "") 2 0)
     ∈ first_run
  /\ PyStr "" = PyStr ""
  /\ no_title_I1002 ∈ [no_title_I1002].
Proof.
  assert (("000000000000000000000000a5a5a5a6", mkVolRecord "I1002" (PyStr "") 2 0)
          ∈ first_run) as Hin.
  { apply elem_of_cons. right. by apply elem_of_cons; left. }
  split; [reflexivity|]. split; [reflexivity|]. split; [exact Hin|].
  apply (@titles_come_from_the_graph online two_volumes_ttl work_id two_volumes
           (start ∅) first_run (mkWorld ∅ [no_title_I1002] [] 2)
           "000000000000000000000000a5a5a5a6" (mkVolRecord "I1002" (PyStr "") 2 0));
    [reflexivity|reflexivity|exact Hin].
Defined.

(** X7 on the first volume. *)
Lemma numbers_come_from_the_graph_on_I1001 :
  @turtle_parse online two_volumes_ttl = Some two_volumes
  /\ @parse_volume_info online two_volumes_ttl work_id (start ∅)
     = (Ok first_run, mkWorld ∅ [no_title_I1002] [] 2)
  /\ ("000000000000000000000000a5a5a5a5", mkVolRecord "I1001" (PyStr "Vol 1") 1 50)
     ∈ first_run
  /\ "I1001" ∈ get_vol_img_grp_id_list two_volumes work_id
  /\ (exists n, graph_value two_volumes (BDR "I1001") (BDO "volumeNumber") = Some n
                /\ @int_of_str online (node_str n) = Some 1%Z)
  /\ (forall n z,
        graph_value two_volumes (BDR "I1001") (BDO "volumePagesTotal") = Some n ->
        @int_of_str online (node_str n) = Some z ->
        50%Z = z).
Proof.
  assert (("000000000000000000000000a5a5a5a5",
           mkVolRecord "I1001" (PyStr "Vol 1") 1 50) ∈ first_run) as Hin.
  { by apply elem_of_cons; left. }
  split; [reflexivity|]. split; [reflexivity|]. split; [exact Hin|].
  apply (@numbers_come_from_the_graph online two_volumes_ttl work_id two_volumes
           (start ∅) first_run (mkWorld ∅ [no_title_I1002] [] 2)
           "000000000000000000000000a5a5a5a5"
           (mkVolRecord "I1001" (PyStr "Vol 1") 1 50));
    [reflexivity|reflexivity|exact Hin].
Defined.

(** X8 on the work with two volumes. *)
Lemma keys_are_the_identifiers_drawn_on_two_volumes :
  @turtle_parse online two_volumes_ttl = Some two_volumes
  /\ @parse_volume_info online two_volumes_ttl work_id (start ∅)
     = (Ok first_run, mkWorld ∅ [no_title_I1002] [] 2)
  /\ NoDup (dict_keys first_run)
  /\ (forall k, k ∈ dict_keys first_run <-> k ∈ @drawn online 0 2)
  /\ 2 = 0 + 2
  /\ List.length first_run <= 2.
Proof.
  split; [reflexivity|]. split; [reflexivity|].
  apply (@keys_are_the_identifiers_drawn online two_volumes_ttl work_id two_volumes
           (start ∅) first_run (mkWorld ∅ [no_title_I1002] [] 2));
    reflexivity.
Defined.

(** X9 on the work with two volumes. *)
Lemma full_count_iff_identifiers_distinct_on_two_volumes :
  @turtle_parse online two_volumes_ttl = Some two_volumes
  /\ @parse_volume_info online two_volumes_ttl work_id (start ∅)
     = (Ok first_run, mkWorld ∅ [no_title_I1002] [] 2)
  /\ (List.length first_run = 2 <-> NoDup (@drawn online 0 2)).
Proof.
  split; [reflexivity|]. split; [reflexivity|].
  apply (@full_count_iff_identifiers_distinct online two_volumes_ttl work_id
           two_volumes (start ∅) first_run (mkWorld ∅ [no_title_I1002] [] 2));
    reflexivity.
Defined.

(** X10 on the volume whose comment points to a resource. *)
Lemma title_that_is_no_literal_raises_on_uri_title :
  @turtle_parse (library None) uri_title_ttl = Some uri_title
  /\ "I1001" ∈ get_vol_img_grp_id_list uri_title work_id
  /\ graph_value uri_title (BDR "I1001") RDFS_comment = Some (URIRef (BDR "T1"))
  /\ node_truthy (URIRef (BDR "T1")) = true
  /\ (forall lexical v, URIRef (BDR "T1") <> Literal lexical v)
  /\ (forall acc w0,
        @volume_step (library None) uri_title work_id acc "I1001" w0
        = (Raise AttributeError,
           mkWorld (heap w0) (log w0) (stdout w0) (S (uuid_calls w0))))
  /\ exists e w',
       @parse_volume_info (library None) uri_title_ttl work_id (start ∅)
       = (Raise e, w').
Proof.
  assert ("I1001" ∈ get_vol_img_grp_id_list uri_title work_id) as Hin.
  { by apply list_elem_of_singleton. }
  assert (forall lexical v, URIRef (BDR "T1") <> Literal lexical v) as Hlit.
  { intros lexical v Heq. discriminate Heq. }
  split; [reflexivity|]. split; [exact Hin|]. split; [reflexivity|].
  split; [reflexivity|]. split; [exact Hlit|].
  apply (@title_that_is_no_literal_raises (library None) uri_title_ttl work_id
           uri_title "I1001" (URIRef (BDR "T1")) (start ∅));
    [reflexivity|exact Hin|reflexivity|reflexivity|exact Hlit].
Defined.

(** X11 on three volumes listed as I1003, I1001, I1002: the first in sorted
    order is recorded, the volume number of the second is no numeral, and
    the third, whose title would raise another exception, is not reached. *)
Lemma first_bad_volume_number_decides_on_three_volumes :
  @turtle_parse catalog three_volumes_ttl = Some three_volumes
  /\ get_vol_img_grp_id_list three_volumes work_id = ["I1001"] ++ "I1002" :: ["I1003"]
  /\ (forall id', id' ∈ ["I1001"] ->
                  @has_volume_number catalog three_volumes id'
                  /\ title_readable three_volumes id')
  /\ title_readable three_volumes "I1002"
  /\ @lacks_volume_number catalog three_volumes "I1002"
  /\ @record_of catalog three_volumes "I1003" = Raise AttributeError
  /\ @parse_volume_info catalog three_volumes_ttl work_id (start ∅)
     = (Raise ValueError, mkWorld ∅ [no_title_I1002] [] 2).
Proof.
  assert (forall id', id' ∈ ["I1001"] ->
                      @has_volume_number catalog three_volumes id'
                      /\ title_readable three_volumes id') as Hbefore.
  { intros id' Hin. apply list_elem_of_singleton in Hin. subst id'. split.
    - exists (Literal "1" (PyInt 1)), 1%Z. split; reflexivity.
    - intros t Ht _. injection Ht as <-. by exists "Vol 1", (PyStr "Vol 1"). }
  assert (title_readable three_volumes "I1002") as Htitle.
  { intros t Ht. discriminate Ht. }
  assert (@lacks_volume_number catalog three_volumes "I1002") as Hlacks.
  { right. exists (Literal "two" (PyStr "two")). split; reflexivity. }
  split; [reflexivity|]. split; [reflexivity|]. split; [exact Hbefore|].
  split; [exact Htitle|]. split; [exact Hlacks|]. split; [reflexivity|].
  apply (@first_bad_volume_number_decides catalog three_volumes_ttl work_id
           three_volumes ["I1001"] "I1002" ["I1003"] (start ∅));
    [reflexivity|reflexivity|exact Hbefore|exact Htitle|exact Hlacks].
Defined.

(** X12 on the two orders of the two volumes. *)
Lemma extraction_independent_of_statement_order_on_reordered :
  @turtle_parse (library None) two_volumes_ttl = Some two_volumes
  /\ @turtle_parse (library None) reordered_ttl = Some reordered
  /\ two_volumes ≡ₚ reordered
  /\ (forall id p,
        id ∈ get_vol_img_grp_id_list two_volumes work_id ->
        p ∈ [RDFS_comment; BDO "volumeNumber"; BDO "volumePagesTotal"] ->
        List.length (objects two_volumes (BDR id) p) <= 1)
  /\ @parse_volume_info (library None) two_volumes_ttl work_id (start ∅)
     = @parse_volume_info (library None) reordered_ttl work_id (start ∅).
Proof.
  split; [reflexivity|]. split; [reflexivity|].
  split; [exact reordered_same_triples|]. split; [exact two_volumes_single_valued|].
  apply (@extraction_independent_of_statement_order (library None)
           two_volumes_ttl reordered_ttl work_id two_volumes reordered (start ∅));
    [reflexivity|reflexivity|exact reordered_same_triples
    |exact two_volumes_single_valued].
Defined.

(** X13 on a document without [source_metadata]. *)
Lemma extractor_exception_passes_through_on_no_number :
  @parse_volume_info online no_number_ttl work_id (start bare_heap)
  = (Raise TypeError, mkWorld bare_heap [no_title_I1001] [] 1)
  /\ @get_new_meta online (VRef 1%positive) no_number_ttl work_id (start bare_heap)
     = (Raise TypeError, mkWorld bare_heap [no_title_I1001] [] 1)
  /\ bare_heap = heap (start bare_heap)
  /\ [] = stdout (start bare_heap).
Proof.
  split; [reflexivity|].
  apply (@extractor_exception_passes_through online (VRef 1%positive) no_number_ttl
           work_id (start bare_heap) TypeError
           (mkWorld bare_heap [no_title_I1001] [] 1)).
  reflexivity.
Defined.

(** X14 on a document that has a [volume] entry. *)
Lemma bad_syntax_erases_volume_on_meta :
  @turtle_parse online bad_ttl = None
  /\ source_metadata_at (heap (start meta_heap)) (VRef 1%positive)
       1%positive top_entries 2%positive source_entries
  /\ @get_new_meta online (VRef 1%positive) bad_ttl work_id (start meta_heap)
     = (Ok (VRef 1%positive),
        mkWorld
          (<[2%positive := ODict (dict_set key_is (PyStr "volume") (VVolInfo [])
                                    source_entries)]> meta_heap)
          [(WARNING, "W22083.ttl Contains bad syntax")] [] 0).
Proof.
  split; [reflexivity|]. split; [exact meta_heap_shape|].
  apply (@bad_syntax_erases_volume online (VRef 1%positive) bad_ttl work_id
           (start meta_heap) 1%positive top_entries 2%positive source_entries);
    [reflexivity|exact meta_heap_shape].
Defined.

(** X15: the two volumes are merged, then the empty text. *)
Lemma second_merge_replaces_first_on_meta :
  source_metadata_at (heap (start meta_heap)) (VRef 1%positive)
    1%positive top_entries 2%positive source_entries
  /\ @parse_volume_info online two_volumes_ttl work_id (start meta_heap)
     = (Ok first_run, mkWorld meta_heap [no_title_I1002] [] 2)
  /\ @parse_volume_info online EmptyString work_id
       (snd (@get_new_meta online (VRef 1%positive) two_volumes_ttl work_id
               (start meta_heap)))
     = (Ok [],
        mkWorld
          (<[2%positive := ODict (dict_set key_is (PyStr "volume")
                                    (VVolInfo first_run) source_entries)]> meta_heap)
          [no_title_I1002] [] 2)
  /\ @get_new_meta online (VRef 1%positive) EmptyString work_id
       (snd (@get_new_meta online (VRef 1%positive) two_volumes_ttl work_id
               (start meta_heap)))
     = (Ok (VRef 1%positive),
        mkWorld
          (<[2%positive := ODict (dict_set key_is (PyStr "volume") (VVolInfo [])
                                    source_entries)]> meta_heap)
          [no_title_I1002] [] 2).
Proof.
  split; [exact meta_heap_shape|]. split; [reflexivity|].
  split; [by vm_compute|].
  apply (@second_merge_replaces_first online (VRef 1%positive) two_volumes_ttl
           work_id EmptyString work_id (start meta_heap) first_run
           (mkWorld meta_heap [no_title_I1002] [] 2) []
           (mkWorld
              (<[2%positive := ODict (dict_set key_is (PyStr "volume")
                                        (VVolInfo first_run) source_entries)]>
                 meta_heap)
              [no_title_I1002] [] 2)
           1%positive top_entries 2%positive source_entries);
    [exact meta_heap_shape|reflexivity|by vm_compute].
Defined.

(** X16 on a document whose [volume] key is the second of three. *)
Lemma volume_key_keeps_its_place_on_meta :
  @parse_volume_info online two_volumes_ttl work_id (start meta_heap)
  = (Ok first_run, mkWorld meta_heap [no_title_I1002] [] 2)
  /\ source_metadata_at (heap (start meta_heap)) (VRef 1%positive)
       1%positive top_entries 2%positive source_entries
  /\ exists d2',
       heap (snd (@get_new_meta online (VRef 1%positive) two_volumes_ttl work_id
                    (start meta_heap))) !! 2%positive = Some (ODict d2')
       /\ dict_keys d2'
          = if decide (PyStr "volume" ∈ dict_keys source_entries)
            then dict_keys source_entries
            else dict_keys source_entries ++ [PyStr "volume"].
Proof.
  split; [reflexivity|]. split; [exact meta_heap_shape|].
  apply (@volume_key_keeps_its_place online (VRef 1%positive) two_volumes_ttl work_id
           (start meta_heap) first_run (mkWorld meta_heap [no_title_I1002] [] 2)
           1%positive top_entries 2%positive source_entries);
    [reflexivity|exact meta_heap_shape].
Defined.


(** X19: the catalog does not answer. *)
Lemma failed_fetch_erases_volume_in_output_offline :
  @turtle_parse (library None) EmptyString = Some []
  /\ @requests_get (library None) "http://purl.bdrc.io/graph/W22083.ttl"
     = Raise (RequestException "ConnectionError")
  /\ @requests_get (library None) meta_url = Ok (mkResponse 200 meta_yml)
  /\ @yaml_safe_load local meta_yml ∅ = Ok (VRef 1%positive, meta_heap ∪ ∅)
  /\ source_metadata_at (meta_heap ∪ ∅) (VRef 1%positive)
       1%positive top_entries 2%positive source_entries
  /\ @yaml_safe_dump local erased_heap (VRef 1%positive) = Ok erased_yml
  /\ @path_mkdir local "./new_meta/P000003" ∅ = (Ok tt, ∅)
  /\ @path_write_text local "./new_meta/P000003/meta.yml" erased_yml ∅
     = (Ok tt, <["./new_meta/P000003/meta.yml" := erased_yml]> ∅)
  /\ @main (library None) local (@mkMachine local (start ∅) ∅)
     = (Ok tt,
        @mkMachine local
          (mkWorld erased_heap [(INFO, "P000003.. Completed")]
             ["Downloading ttl file"; " TTL not Found!!!"] 0)
          (<["./new_meta/P000003/meta.yml" := erased_yml]> ∅)).
Proof.
  assert (source_metadata_at (meta_heap ∪ ∅) (VRef 1%positive)
            1%positive top_entries 2%positive source_entries) as Hshape.
  { repeat split; by vm_compute. }
  split; [reflexivity|]. split; [reflexivity|]. split; [reflexivity|].
  split; [reflexivity|]. split; [exact Hshape|]. split; [by vm_compute|].
  split; [reflexivity|]. split; [reflexivity|].
  apply (@failed_fetch_erases_volume_in_output (library None) local
           (@mkMachine local (start ∅) ∅) (RequestException "ConnectionError")
           (mkResponse 200 meta_yml) (VRef 1%positive) (meta_heap ∪ ∅)
           1%positive top_entries 2%positive source_entries erased_yml ∅
           (<["./new_meta/P000003/meta.yml" := erased_yml]> ∅));
    [reflexivity|reflexivity|reflexivity|reflexivity|exact Hshape|by vm_compute
    |reflexivity|reflexivity].
Defined.

(** X20: the catalog answers with a volume that has no volume number. *)
Lemma bad_volume_number_stops_the_run_on_no_number :
  @requests_get (library (Some no_number_ttl)) "http://purl.bdrc.io/graph/W22083.ttl"
  = Ok (mkResponse 200 no_number_ttl)
  /\ @turtle_parse (library (Some no_number_ttl)) no_number_ttl = Some no_number
  /\ "I1001" ∈ get_vol_img_grp_id_list no_number "W22083"
  /\ @lacks_volume_number (library (Some no_number_ttl)) no_number "I1001"
  /\ exists e,
       fst (@main (library (Some no_number_ttl)) local (@mkMachine local (start ∅) ∅))
       = Raise e
       /\ @disk local (snd (@main (library (Some no_number_ttl)) local
                              (@mkMachine local (start ∅) ∅))) = ∅.
Proof.
  assert ("I1001" ∈ get_vol_img_grp_id_list no_number "W22083") as Hin.
  { by apply list_elem_of_singleton. }
  assert (@lacks_volume_number (library (Some no_number_ttl)) no_number "I1001")
    as Hlacks.
  { left. reflexivity. }
  split; [reflexivity|]. split; [reflexivity|]. split; [exact Hin|].
  split; [exact Hlacks|].
  apply (@bad_volume_number_stops_the_run (library (Some no_number_ttl)) local
           (@mkMachine local (start ∅) ∅) (mkResponse 200 no_number_ttl)
           no_number "I1001");
    [reflexivity|reflexivity|exact Hin|exact Hlacks].
Defined.

End Scenarios.
